(** * performance-budgets: the budget evaluation of [main], embedded in Rocq

  The repository holds two copies of [lib/index.js]:
  - [src/lib/index.js], embedded in [Module Index];
  - an older copy with the budgets in a separate [audit.json],
    embedded in [Module Legacy].

  Both run Lighthouse in a headless Chrome, compare the report with the
  configured budgets, print diagnostics through [console.log] and settle
  the promise returned by [main].  The fragment of JavaScript that the
  two files use is in [Module Js]. *)

From Stdlib Require Import Ascii String ZArith QArith Qround.
From stdpp Require Import base strings list gmap pretty.

Open Scope string_scope.
Open Scope list_scope.

(** ** The JavaScript fragment used by the sources *)
Module Js.

(** A JavaScript number.  The measurements and budgets are read from JSON,
    which has finite numbers only; they are taken as exact rationals.
    The sign of a difference of two finite doubles is the sign of the exact
    difference, so [a - b > 0] is decided here as JavaScript decides it.
    The value of a difference is JavaScript's where no rounding to a double
    happens: for integers below [2^53] in magnitude with such a difference.
    Statements about a value that is printed keep to that range.
    [NaN] is the result of arithmetic on [undefined]. *)
Inductive number : Type :=
| NaN
| Num (q : Q).

(** [ToNumber] on a value that is a number or [undefined] ([None]). *)
Definition ToNumber (v : option number) : number :=
  match v with
  | Some n => n
  | None => NaN
  end.

(** [a - b], exact (see [number]). *)
Definition sub (a b : number) : number :=
  match a, b with
  | Num x, Num y => Num (x - y)
  | _, _ => NaN
  end.

(** [a / b]; the only divisor in the sources is the literal [1024], the
    quotient by zero (an infinity in JavaScript) is left as [NaN]. *)
Definition div (a b : number) : number :=
  match a, b with
  | Num x, Num y => if (Qnum y =? 0)%Z then NaN else Num (x / y)
  | _, _ => NaN
  end.

(** [a > 0]: every comparison with [NaN] is false. *)
Definition gt0 (a : number) : bool :=
  match a with
  | Num x => (0 <? Qnum x)%Z
  | NaN => false
  end.

(** Truthiness ([ToBoolean]): [0], [NaN], [undefined] and the empty string
    are falsy. *)
Definition truthy_number (a : number) : bool :=
  match a with
  | Num x => negb (Qnum x =? 0)%Z
  | NaN => false
  end.

Definition truthy (v : option number) : bool :=
  match v with
  | Some n => truthy_number n
  | None => false
  end.

Definition truthy_string (v : option string) : bool :=
  match v with
  | Some s => negb (String.eqb s "")
  | None => false
  end.

(** [v !== undefined] *)
Definition defined {A} (v : option A) : bool :=
  match v with
  | Some _ => true
  | None => false
  end.

(** [Math.round]: the nearest integer, a tie going up. *)
Definition Math_round (a : number) : number :=
  match a with
  | Num x => Num (inject_Z (Qfloor (x + (1 # 2))))
  | NaN => NaN
  end.

(** [n] is the integer nearest to [x], the upper one of the two at a
    tie. *)
Definition nearest_half_up (x : Q) (n : Z) : Prop :=
  (inject_Z n - (1 # 2) <= x)%Q ∧ (x < inject_Z n + (1 # 2))%Q.

(** What the sources take from outside the language core: the two colours
    of [chalk] (the identity when colours are off), and the parts of the
    number conversions that the diagnostics of a well-formed report do not
    reach: the text of a number that is no integer below [2^53] in
    magnitude, and the value of a string that is no plain decimal numeral
    below [2^53]. *)
Record Runtime : Type := {
  green : string → string;
  red : string → string;
  fraction_text : Q → string;
  literal_value : string → number;
}.

(** A terminal without colours. *)
Definition monochrome : Runtime :=
  {| green := id; red := id;
     fraction_text := λ _, "?"; literal_value := λ _, NaN |}.

(** [Number::toString] in radix 10: an integer below [2^53] in magnitude
    prints as its decimal digits.  (Above, a double prints with the fewest
    digits that read back as the same double, zeros after them.) *)
Definition NumberToString (rt : Runtime) (a : number) : string :=
  match a with
  | NaN => "NaN"
  | Num x =>
      let r := Qred x in
      if ((Qden r =? 1)%positive && (Z.abs (Qnum r) <? 2 ^ 53)%Z)%bool
      then pretty (Qnum r)
      else fraction_text rt x
  end.

(** [String(v)] for a number or [undefined], as a template literal and
    [chalk] apply it. *)
Definition ToString (rt : Runtime) (v : option number) : string :=
  match v with
  | Some n => NumberToString rt n
  | None => "undefined"
  end.

(** [s.startsWith(sep)] *)
Fixpoint starts_with (sep s : string) : bool :=
  match sep, s with
  | "", _ => true
  | String a sep', String b s' => Ascii.eqb a b && starts_with sep' s'
  | String _ _, "" => false
  end.

(** [s.split(sep)[0]] for a non-empty separator: the text before the
    first occurrence of [sep], all of [s] when there is none. *)
Fixpoint split_head (sep s : string) : string :=
  if starts_with sep s then ""
  else match s with
       | "" => ""
       | String c s' => String c (split_head sep s')
       end.

Definition is_white (c : ascii) : bool :=
  let n := nat_of_ascii c in
  ((n =? 32) || ((9 <=? n) && (n <=? 13)))%nat.

Fixpoint trim_start (s : string) : string :=
  match s with
  | String c s' => if is_white c then trim_start s' else s
  | "" => ""
  end.

Fixpoint trim_end (s : string) : string :=
  match s with
  | String c s' =>
      match trim_end s' with
      | "" => if is_white c then "" else String c ""
      | t => String c t
      end
  | "" => ""
  end.

Definition trim (s : string) : string := trim_end (trim_start s).

Definition digit (c : ascii) : option Z :=
  let n := nat_of_ascii c in
  if ((48 <=? n) && (n <=? 57))%nat then Some (Z.of_nat (n - 48)) else None.

(** The value of a string of decimal digits, [acc] being the value of the
    digits already read. *)
Fixpoint digits (acc : Z) (s : string) : option Z :=
  match s with
  | "" => Some acc
  | String c s' =>
      match digit c with
      | Some d => digits (10 * acc + d) s'
      | None => None
      end
  end.

(** [ToNumber] on a string: white space around the numeral is dropped,
    the empty string is [0]; a decimal numeral below [2^53] has its exact
    value (a larger one is rounded to a double). *)
Definition StringToNumber (rt : Runtime) (s : string) : number :=
  let t := trim s in
  if String.eqb t "" then Num 0
  else match digits 0 t with
       | Some n => if (n <? 2 ^ 53)%Z then Num (inject_Z n) else literal_value rt s
       | None => literal_value rt s
       end.

(** Exceptions and rejection reasons. *)
Inductive error : Type :=
| ReferenceError (identifier : string)
| TypeError (message : string)
| Failure (message : string).

(** What a run does to the outside, in order: lines on the console and
    the life of the browser process. *)
Inductive event : Type :=
| Log (line : string)
| LogError (e : error)
| ChromeLaunched
| LighthouseStarted (url : string)
| ChromeKilled.

#[global] Instance error_eq_dec : EqDecision error.
Proof. solve_decision. Defined.

#[global] Instance event_eq_dec : EqDecision event.
Proof. solve_decision. Defined.

(** How the promise returned by [main] settles. *)
Inductive settled : Type :=
| Resolved
| Rejected (reason : string).

(** A computation that writes events and either returns or throws. *)
Definition Eff (A : Type) : Type := list event * (error + A).

Definition ret {A} (a : A) : Eff A := ([], inr a).

Definition throw {A} (e : error) : Eff A := ([], inl e).

Definition emit (ev : event) : Eff unit := ([ev], inr tt).

Definition log (line : string) : Eff unit := emit (Log line).

Definition bind {A B} (m : Eff A) (k : A → Eff B) : Eff B :=
  match m with
  | (out, inl e) => (out, inl e)
  | (out, inr a) => let '(out', r) := k a in (out ++ out', r)
  end.

(** The value or exception of a collaborator, as a computation. *)
Definition lift {A} (r : error + A) : Eff A := ([], r).

(** [xs.forEach(f)] *)
Fixpoint forEach {A} (f : A → Eff unit) (xs : list A) : Eff unit :=
  match xs with
  | [] => ret tt
  | x :: xs' => bind (f x) (λ _, forEach f xs')
  end.

End Js.

Notation "'let*' x ':=' m 'in' k" := (Js.bind m (λ x, k))
(at level 10, x name, m at level 100, k at level 200).

(** ** What the collaborators hand over *)
Module Lighthouse.
Import Js.

(** A row of the resource-budget table, as the audit engine computed it:
    the two over-budget fields are absent ([None]) for a group within
    its budget. *)
Record Item : Type := {
  label : string;
  requestCount : number;
  size : number;
  sizeOverBudget : option number;
  countOverBudget : option string;
}.

(** [details] of an audit; [items] may be absent. *)
Record Details : Type := {
  items : option (list Item);
}.

(** A JavaScript object read as a map from own keys to values, in the
    order [Object.keys] lists them; [get] and [put] act on the first entry
    of a key, the only one an object has. *)
Definition object (V : Type) : Type := list (string * V).

Definition keys {V} (o : object V) : list string := o.*1.

(** [o[key]] *)
Fixpoint get {V} (o : object V) (key : string) : option V :=
  match o with
  | [] => None
  | (k, v) :: o' => if String.eqb k key then Some v else get o' key
  end.

(** The object held at [o[key]] replaced by its state after a mutation. *)
Fixpoint put {V} (o : object V) (key : string) (v : V) : object V :=
  match o with
  | [] => []
  | (k, v0) :: o' =>
      if String.eqb k key then (k, v) :: o' else (k, v0) :: put o' key v
  end.

(** The message printed for a bundled example configuration. *)
Definition advisory : string :=
"
-------
Using example configuration for lighthouse. 
You can configure your own lighthouse rules & budgets, read the documentation for more information.
https://github.com/boyney123/performance-budgets
-------
      ".

(** [const { details: { items = [] } = {} } = audit]: destructuring
    [undefined] throws, an absent [details] or [items] gives [[]]. *)
Definition destructure_items (found : option (option Details)) : Eff (list Item) :=
  match found with
  | None => throw (TypeError "Cannot destructure property 'details' of undefined")
  | Some None => ret []
  | Some (Some d) => ret (default [] (items d))
  end.

(** [({ sizeOverBudget, countOverBudget }) => !sizeOverBudget && !countOverBudget] *)
Definition withinBudget (item : Item) : bool :=
  negb (truthy (sizeOverBudget item)) && negb (truthy_string (countOverBudget item)).

(** The text for a group over its request-count budget (lines 137-143). *)
Definition requestCountText (rt : Runtime) (item : Item) (descriptor : string)
    : string :=
  let expectedCount :=
    sub (requestCount item)
        (StringToNumber rt (split_head " requests" descriptor)) in
  green rt (label item) +:+ ": Expected "
  +:+ green rt (NumberToString rt expectedCount)
  +:+ " total number of requests but got "
  +:+ red rt (NumberToString rt (requestCount item)).

(** The body of the [forEach] over [failedRequestCountAudits]:
    [countOverBudget.split] throws on [undefined]. *)
Definition requestCountLine (rt : Runtime) (item : Item) : Eff unit :=
  match countOverBudget item with
  | None => throw (TypeError "Cannot read property 'split' of undefined")
  | Some descriptor => log (requestCountText rt item descriptor)
  end.

(** What [requestCountLine] prints for a group that has a descriptor. *)
Definition requestCountShown (rt : Runtime) (item : Item) : string :=
  requestCountText rt item (default "" (countOverBudget item)).

(** The text for a group over its size budget (lines 158-165). *)
Definition sizeText (rt : Runtime) (item : Item) : string :=
  let expectedSize :=
    Math_round (div (sub (size item) (ToNumber (sizeOverBudget item))) (Num 1024)) in
  let actual := Math_round (div (size item) (Num 1024)) in
  green rt (label item) +:+ ": Expected "
  +:+ green rt (NumberToString rt expectedSize +:+ "kb")
  +:+ " download size but got "
  +:+ red rt (NumberToString rt actual +:+ "kb").

Definition sizeLine (rt : Runtime) (item : Item) : Eff unit :=
  log (sizeText rt item).

(** [if (xs.length) { log(chalk.red(heading)); xs.forEach(line) }] *)
Definition section {A} (rt : Runtime) (heading : string)
    (line : A → Eff unit) (xs : list A) : Eff unit :=
  match xs with
  | [] => ret tt
  | _ :: _ => let* _ := log (red rt heading) in forEach line xs
  end.

(** What such a block prints when every element prints one line. *)
Definition printed (rt : Runtime) (heading : string) (lines : list string)
    : list event :=
  match lines with
  | [] => []
  | _ :: _ => Log (red rt heading) :: (Log <$> lines)
  end.

End Lighthouse.

(** ** [src/lib/index.js] *)
Module Index.
Import Js Lighthouse.

(** An entry of [data.audits].  [timeBudget] and [overBudgetBy] are the
    two properties [main] writes; a report fresh from the engine has
    neither. *)
Record Audit : Type := {
  id : string;
  numericValue : option number;
  details : option Details;
  timeBudget : option number;
  overBudgetBy : option number;
}.

(** The part of the report ([results.lhr]) that [main] reads: [audits]
    and [configSettings.speedBudgets], a threshold per audit id.  This is
    a report whose settings hold a [speedBudgets] object; [Lhr] below is
    the report with or without one. *)
Record Report : Type := {
  audits : object Audit;
  speedBudgets : gmap string number;
}.

(** What a run finds outside: the command line, whether the identifier
    [configOverride] (free in the file) is bound, the configuration files,
    and how the launcher, the engine and [chrome.kill()] settle. *)
Record World : Type := {
  argv2 : option string;
  configOverride_bound : bool;
  override_exists : bool;
  override_isCustom : error + bool;
  example_isCustom : error + bool;
  launch : error + unit;
  lighthouse : error + Report;
  kill : error + unit;
}.

(** [getLightHouseConfig]: the override file when it exists, the bundled
    one otherwise; the result is the truthiness of its [isCustom]. *)
Definition getLightHouseConfig (w : World) : Eff bool :=
  if override_exists w then lift (override_isCustom w)
  else lift (example_isCustom w).

(** [launchChromeAndRunLighthouse] *)
Definition launchChromeAndRunLighthouse (w : World) (url : string) : Eff Report :=
  let* _ := lift (launch w) in
  let* _ := emit ChromeLaunched in
  let* isCustom := getLightHouseConfig w in
  let* _ := (if isCustom then ret tt else log advisory) in
  let* _ := emit (LighthouseStarted url) in
  let* results := lift (lighthouse w) in
  let* _ := emit ChromeKilled in
  let* _ := lift (kill w) in
  ret results.

(** The body of the first [forEach] (lines 77-82), as the new state of
    the audit object. *)
Definition annotate (speedBudgets : gmap string number) (audit : Audit) : Audit :=
  match numericValue audit with
  | Some measured =>
      let overBudget := sub measured (ToNumber (speedBudgets !! id audit)) in
      {| id := id audit;
         numericValue := numericValue audit;
         details := details audit;
         timeBudget := speedBudgets !! id audit;
         overBudgetBy := if gt0 overBudget then Some overBudget else None |}
  | None => audit
  end.

(** One step of that loop on the audits object. *)
Definition visit (speedBudgets : gmap string number)
    (speedResults : object Audit) (key : string) : object Audit :=
  match get speedResults key with
  | Some audit => put speedResults key (annotate speedBudgets audit)
  | None => speedResults
  end.

(** [Object.keys(speedResults).forEach(...)]: the audits after the loop. *)
Definition annotateAll (speedBudgets : gmap string number)
    (speedResults : object Audit) : object Audit :=
  foldl (visit speedBudgets) speedResults (keys speedResults).

(** [speedResults[key].overBudgetBy] *)
Definition overBudgetBy_at (speedResults : object Audit) (key : string) : option number :=
  audit ← get speedResults key; overBudgetBy audit.

Definition successfulSpeedAudits (speedResults : object Audit) : list string :=
  List.filter (λ key, negb (truthy (overBudgetBy_at speedResults key)))
              (keys speedResults).

Definition successfulBundleAudits (items : list Item) : list Item :=
  List.filter withinBudget items.

Definition isValid (speedResults : object Audit) (items : list Item) : bool :=
  (length (successfulBundleAudits items) =? length items)%nat
  && (length (successfulSpeedAudits speedResults) =? length (keys speedResults))%nat.

Definition failedSpeedAudits (speedResults : object Audit) : list string :=
  List.filter (λ key, truthy (overBudgetBy_at speedResults key)) (keys speedResults).

Definition failedRequestCountAudits (items : list Item) : list Item :=
  List.filter (λ audit, defined (countOverBudget audit)) items.

Definition failedBundleAudits (items : list Item) : list Item :=
  List.filter (λ audit, defined (sizeOverBudget audit)) items.

(** The text of a failed timing audit (lines 117-123). *)
Definition speedText (rt : Runtime) (audit : Audit) : string :=
  let actual := Math_round (ToNumber (numericValue audit)) in
  green rt (id audit) +:+ ": Expected less than "
  +:+ green rt (ToString rt (timeBudget audit))
  +:+ " ms but got " +:+ red rt (NumberToString rt actual) +:+ " ms".

Definition speedLine (rt : Runtime) (speedResults : object Audit)
    (key : string) : Eff unit :=
  match get speedResults key with
  | Some audit => log (speedText rt audit)
  | None => throw (TypeError "Cannot destructure property 'id' of undefined")
  end.

(** The branch [if (!isValid)] up to its [return] (lines 102-168). *)
Definition diagnostics (rt : Runtime) (speedResults : object Audit)
    (items : list Item) : Eff unit :=
  let* _ := section rt "----- Failed page speed budget audits ------"
              (speedLine rt speedResults) (failedSpeedAudits speedResults) in
  let* _ := section rt "----- Failed resource count budget audits ------"
              (requestCountLine rt) (failedRequestCountAudits items) in
  section rt "----- Failed resource size budget audits ------"
    (sizeLine rt) (failedBundleAudits items).

(** [main] from the report on (lines 71-174). *)
Definition checkBudgets (rt : Runtime) (data : Report) : Eff settled :=
  let speedResults := annotateAll (speedBudgets data) (audits data) in
  let* items := destructure_items (details <$> get speedResults "performance-budget") in
  if isValid speedResults items then
    let* _ := log "All budgets passed. âœ”" in
    ret Resolved
  else
    let* _ := diagnostics rt speedResults items in
    ret (Rejected "Budgets broken").

(** The [try] block of [main]. *)
Definition attempt (rt : Runtime) (w : World) : Eff settled :=
  match argv2 w with
  | None | Some "" =>
      let* _ := log (red rt "Please provide a url") in
      ret (Rejected "Please provide a valid url")
  | Some url =>
      let* _ := log ("Requesting lighthouse data for " +:+ green rt url) in
      let* _ := (if configOverride_bound w then ret tt
                 else throw (ReferenceError "configOverride")) in
      let* data := launchChromeAndRunLighthouse w url in
      checkBudgets rt data
  end.

(** [main]: what the run does and how its promise settles; the [catch]
    logs the exception and rejects. *)
Definition main (rt : Runtime) (w : World) : list event * settled :=
  match attempt rt w with
  | (out, inr outcome) => (out, outcome)
  | (out, inl e) => (out ++ [LogError e], Rejected "Failed to get lighthouse data")
  end.

(** A run that gets as far as the report: a URL is given, [configOverride]
    resolves, the browser starts, a configuration is read, the engine
    resolves with [data] and the browser is killed. *)
Definition obtains (w : World) (url : string) (isCustom : bool) (data : Report)
    : Prop :=
  argv2 w = Some url ∧ url ≠ "" ∧ configOverride_bound w = true
  ∧ launch w = inr tt ∧ getLightHouseConfig w = ret isCustom
  ∧ lighthouse w = inr data ∧ kill w = inr tt.

(** What such a run does before it looks at the report. *)
Definition preamble (rt : Runtime) (url : string) (isCustom : bool) : list event :=
  [Log ("Requesting lighthouse data for " +:+ green rt url); ChromeLaunched]
  ++ (if isCustom then [] else [Log advisory])
  ++ [LighthouseStarted url; ChromeKilled].

(** The resource items of a report: [None] when it has no
    ["performance-budget"] audit. *)
Definition itemsOf (speedResults : object Audit) : option (list Item) :=
  audit ← get speedResults "performance-budget";
  Some (default [] (details audit ≫= items)).

(** The report as line 72 to 74 read it.  [data.configSettings.speedBudgets]
    is read without a check: settings that hold no timing budgets give
    [undefined] ([None]). *)
Record Lhr : Type := {
  lhr_audits : object Audit;
  lhr_speedBudgets : option (gmap string number);
}.

(** One step of the first [forEach] (lines 77-82) on the budgets as read:
    [speedBudgets[audit.id]] throws when [speedBudgets] is [undefined]. *)
Definition visitRead (speedBudgets : option (gmap string number))
    (speedResults : object Audit) (key : string) : error + object Audit :=
  match get speedResults key with
  | Some audit =>
      match numericValue audit with
      | Some _ =>
          match speedBudgets with
          | Some budgets => inr (put speedResults key (annotate budgets audit))
          | None =>
              inl (TypeError ("Cannot read property '" +:+ id audit
                              +:+ "' of undefined"))
          end
      | None => inr speedResults
      end
  | None => inr speedResults
  end.

(** A [forEach] over keys whose body may throw: the first exception ends
    the loop. *)
Fixpoint forEachKey (body : object Audit → string → error + object Audit)
    (speedResults : object Audit) (ks : list string) : error + object Audit :=
  match ks with
  | [] => inr speedResults
  | key :: ks' =>
      match body speedResults key with
      | inr speedResults' => forEachKey body speedResults' ks'
      | inl e => inl e
      end
  end.

(** The audits after the first loop (lines 76-83), or its exception. *)
Definition annotateRead (data : Lhr) : error + object Audit :=
  forEachKey (visitRead (lhr_speedBudgets data)) (lhr_audits data)
             (keys (lhr_audits data)).

(** [main] after that loop (lines 85-174). *)
Definition conclude (rt : Runtime) (speedResults : object Audit) : Eff settled :=
  let* items := destructure_items (details <$> get speedResults "performance-budget") in
  if isValid speedResults items then
    let* _ := log "All budgets passed. âœ”" in
    ret Resolved
  else
    let* _ := diagnostics rt speedResults items in
    ret (Rejected "Budgets broken").

(** [main] from the report on (lines 71-178), its [catch] included. *)
Definition evaluate (rt : Runtime) (data : Lhr) : list event * settled :=
  match (let* speedResults := lift (annotateRead data) in
         conclude rt speedResults) with
  | (out, inr outcome) => (out, outcome)
  | (out, inl e) => (out ++ [LogError e], Rejected "Failed to get lighthouse data")
  end.

(** The report [data] as [main] reads it. *)
Definition asRead (data : Report) : Lhr :=
  {| lhr_audits := audits data; lhr_speedBudgets := Some (speedBudgets data) |}.

End Index.

(** ** The older copy of [lib/index.js], with the budgets in [audit.json] *)
Module Legacy.
Import Js Lighthouse.

(** An entry of [audits] in [config/audit.json].  [actualSpeed] and
    [overBudgetBy] are the two properties [main] writes. *)
Record Budget : Type := {
  id : string;
  timeBudget : option number;
  actualSpeed : option number;
  overBudgetBy : option number;
}.

(** An entry of [data.audits]. *)
Record Audit : Type := {
  numericValue : option number;
  details : option Details;
}.

(** What a run finds outside: the command line, the two configuration
    files, how the launcher, the engine and [chrome.kill()] settle, and
    the bindings of [failedBudgets] and [failedAudits] (free in the
    file; [None] is unbound). *)
Record World : Type := {
  argv2 : option string;
  example_isCustom : error + bool;
  audit_json : error + list Budget;
  launch : error + unit;
  lighthouse : error + object Audit;
  kill : error + unit;
  failedBudgets : option (list Item);
  failedAudits : option (list Item);
}.

Definition getLightHouseConfig (w : World) : Eff bool := lift (example_isCustom w).

Definition getAuditBudgets (w : World) : Eff (list Budget) := lift (audit_json w).

(** [launchChromeAndRunLighthouse] *)
Definition launchChromeAndRunLighthouse (w : World) (url : string)
    : Eff (object Audit) :=
  let* _ := lift (launch w) in
  let* _ := emit ChromeLaunched in
  let* isCustom := getLightHouseConfig w in
  let* _ := (if isCustom then ret tt else log advisory) in
  let* _ := emit (LighthouseStarted url) in
  let* results := lift (lighthouse w) in
  let* _ := emit ChromeKilled in
  let* _ := lift (kill w) in
  ret results.

(** The body of the first [forEach] (lines 70-79), as the new state of
    the configuration entry. *)
Definition annotate (auditResults : object Audit) (audit : Budget) : Budget :=
  match get auditResults (id audit) with
  | Some {| numericValue := Some measured |} =>
      let overBudget := sub measured (ToNumber (timeBudget audit)) in
      {| id := id audit;
         timeBudget := timeBudget audit;
         actualSpeed := Some measured;
         overBudgetBy := if gt0 overBudget then Some overBudget else None |}
  | _ => audit
  end.

Definition successfulSpeedAudits (speedAudits : list Budget) : list Budget :=
  List.filter (λ audit, negb (truthy (overBudgetBy audit))) speedAudits.

Definition successfulBudgets (items : list Item) : list Item :=
  List.filter withinBudget items.

Definition isValid (speedAudits : list Budget) (items : list Item) : bool :=
  (length (successfulBudgets items) =? length items)%nat
  && (length (successfulSpeedAudits speedAudits) =? length speedAudits)%nat.

Definition failedSpeedAudits (speedAudits : list Budget) : list Budget :=
  List.filter (λ audit, truthy (overBudgetBy audit)) speedAudits.

(** The text of a failed timing audit (lines 116-121). *)
Definition speedText (rt : Runtime) (audit : Budget) : string :=
  green rt (id audit) +:+ ": Expected "
  +:+ green rt (ToString rt (timeBudget audit))
  +:+ " ms but got " +:+ red rt (ToString rt (actualSpeed audit)).

(** A free identifier read. *)
Definition global {A} (name : string) (binding : option A) : Eff A :=
  match binding with
  | Some v => ret v
  | None => throw (ReferenceError name)
  end.

(** The branch [if (!isValid)] up to its [return] (lines 101-167). *)
Definition diagnostics (rt : Runtime) (w : World) (speedAudits : list Budget)
    : Eff unit :=
  let* failedBudgets := global "failedBudgets" (failedBudgets w) in
  let failedRequestCountAudits :=
    List.filter (λ audit, defined (countOverBudget audit)) failedBudgets in
  let* failedAudits := global "failedAudits" (failedAudits w) in
  let failedSizeAudits :=
    List.filter (λ audit, defined (sizeOverBudget audit)) failedAudits in
  let* _ := section rt "----- Failed page speed budget audits ------"
              (λ audit, log (speedText rt audit)) (failedSpeedAudits speedAudits) in
  let* _ := section rt "----- Failed resource count budget audits ------"
              (requestCountLine rt) failedRequestCountAudits in
  section rt "----- Failed resource size budget audits ------"
    (sizeLine rt) failedSizeAudits.

(** [main] from the report on (lines 66-170); [speedAudits] is the array
    read from [audit.json]. *)
Definition checkBudgets (rt : Runtime) (w : World) (speedAudits : list Budget)
    (auditResults : object Audit) : Eff settled :=
  let speedAudits := annotate auditResults <$> speedAudits in
  let* items := destructure_items (details <$> get auditResults "performance-budget") in
  if isValid speedAudits items then
    let* _ := log "All budgets passed. âœ”" in
    ret Resolved
  else
    let* _ := diagnostics rt w speedAudits in
    ret (Rejected "Budgets broken").

(** The [try] block of [main]. *)
Definition attempt (rt : Runtime) (w : World) : Eff settled :=
  match argv2 w with
  | None | Some "" =>
      let* _ := log (red rt "Please provide a url") in
      ret (Rejected "Please provide a valid url")
  | Some url =>
      let* _ := log ("Requesting lighthouse data for " +:+ green rt url) in
      let* _ := getLightHouseConfig w in
      let* speedAudits := getAuditBudgets w in
      let* data := launchChromeAndRunLighthouse w url in
      checkBudgets rt w speedAudits data
  end.

(** [main]: what the run does and how its promise settles. *)
Definition main (rt : Runtime) (w : World) : list event * settled :=
  match attempt rt w with
  | (out, inr outcome) => (out, outcome)
  | (out, inl e) => (out ++ [LogError e], Rejected "Failed to get lighthouse data")
  end.

(** A run that gets as far as the report: a URL is given, both
    configuration files are read, the browser starts, the engine resolves
    with [data] and the browser is killed. *)
Definition obtains (w : World) (url : string) (isCustom : bool)
    (speedAudits : list Budget) (data : object Audit) : Prop :=
  argv2 w = Some url ∧ url ≠ "" ∧ example_isCustom w = inr isCustom
  ∧ audit_json w = inr speedAudits ∧ launch w = inr tt
  ∧ lighthouse w = inr data ∧ kill w = inr tt.

(** What such a run does before it looks at the report. *)
Definition preamble (rt : Runtime) (url : string) (isCustom : bool) : list event :=
  [Log ("Requesting lighthouse data for " +:+ green rt url); ChromeLaunched]
  ++ (if isCustom then [] else [Log advisory])
  ++ [LighthouseStarted url; ChromeKilled].

(** The resource items of a report: [None] when it has no
    ["performance-budget"] audit. *)
Definition itemsOf (auditResults : object Audit) : option (list Item) :=
  audit ← get auditResults "performance-budget";
  Some (default [] (details audit ≫= items)).

End Legacy.

(** ** Reports and runs used as examples *)
Module Scenario.
Import Js Lighthouse.

(** An audit as the engine reports it. *)
Definition reported (id : string) (numericValue : option number)
    (details : option Details) : Index.Audit :=
  {| Index.id := id; Index.numericValue := numericValue;
     Index.details := details;
     Index.timeBudget := None; Index.overBudgetBy := None |}.

(** The ["performance-budget"] audit with its table. *)
Definition budgetTable (rows : list Item) : string * Index.Audit :=
  ("performance-budget",
   reported "performance-budget" None (Some {| items := Some rows |})).

(** A run of [src/lib/index.js] in which every collaborator does its
    part and the engine resolves with [data]. *)
Definition run (data : Index.Report) : Index.World :=
  {| Index.argv2 := Some "https://example.com";
     Index.configOverride_bound := true;
     Index.override_exists := false;
     Index.override_isCustom := inl (Failure "ENOENT");
     Index.example_isCustom := inr true;
     Index.launch := inr tt;
     Index.lighthouse := inr data;
     Index.kill := inr tt |}.

Definition fcp (measured : Z) : string * Index.Audit :=
  ("first-contentful-paint",
   reported "first-contentful-paint" (Some (Num (inject_Z measured))) None).

(** First contentful paint measured at [measured] ms against a budget of
    [threshold] ms, and an empty resource table. *)
Definition paint (threshold measured : Z) : Index.Report :=
  {| Index.audits := [fcp measured; budgetTable []];
     Index.speedBudgets := {[ "first-contentful-paint" := Num (inject_Z threshold) ]} |}.

Definition scripts : Item :=
  {| label := "scripts"; requestCount := Num 12;
     size := Num (inject_Z (300 * 1024));
     sizeOverBudget := Some (Num (inject_Z (50 * 1024)));
     countOverBudget := None |}.

Definition images : Item :=
  {| label := "images"; requestCount := Num 20;
     size := Num (inject_Z (100 * 1024));
     sizeOverBudget := None;
     countOverBudget := Some "5 requests" |}.

(** A group whose [sizeOverBudget] is present and zero. *)
Definition exact : Item :=
  {| label := "fonts"; requestCount := Num 2;
     size := Num (inject_Z (40 * 1024));
     sizeOverBudget := Some (Num 0);
     countOverBudget := None |}.

(** No timing audit, and the given resource table. *)
Definition table (rows : list Item) : Index.Report :=
  {| Index.audits := [budgetTable rows]; Index.speedBudgets := ∅ |}.

(** An audit with a budget and no measurement. *)
Definition unmeasured : Index.Report :=
  {| Index.audits := [("interactive", reported "interactive" None None);
                      budgetTable []];
     Index.speedBudgets := {[ "interactive" := Num 5000 ]} |}.

(** An audit with a measurement and no budget. *)
Definition unbudgeted : Index.Report :=
  {| Index.audits := [("speed-index", reported "speed-index" (Some (Num 4321)) None);
                      budgetTable []];
     Index.speedBudgets := ∅ |}.

(** The same audits in a report whose settings hold no [speedBudgets]:
    no timing budget is configured. *)
Definition unconfigured : Index.Lhr :=
  {| Index.lhr_audits := Index.audits unbudgeted; Index.lhr_speedBudgets := None |}.

(** The engine fails after the browser has started. *)
Definition engineFails : Index.World :=
  {| Index.argv2 := Some "https://example.com";
     Index.configOverride_bound := true;
     Index.override_exists := false;
     Index.override_isCustom := inl (Failure "ENOENT");
     Index.example_isCustom := inr true;
     Index.launch := inr tt;
     Index.lighthouse := inl (Failure "PROTOCOL_TIMEOUT");
     Index.kill := inr tt |}.

(** The same for the older copy, with one budget in [audit.json]. *)
Definition budget (id : string) (timeBudget : Z) : Legacy.Budget :=
  {| Legacy.id := id; Legacy.timeBudget := Some (Num (inject_Z timeBudget));
     Legacy.actualSpeed := None; Legacy.overBudgetBy := None |}.

Definition measuredAt (measured : Z) : Legacy.Audit :=
  {| Legacy.numericValue := Some (Num (inject_Z measured)); Legacy.details := None |}.

Definition legacyTable (rows : list Item) : string * Legacy.Audit :=
  ("performance-budget",
   {| Legacy.numericValue := None;
      Legacy.details := Some {| items := Some rows |} |}).

Definition legacyRun (budgets : list Legacy.Budget)
    (engine : error + object Legacy.Audit) : Legacy.World :=
  {| Legacy.argv2 := Some "https://example.com";
     Legacy.example_isCustom := inr true;
     Legacy.audit_json := inr budgets;
     Legacy.launch := inr tt;
     Legacy.lighthouse := engine;
     Legacy.kill := inr tt;
     Legacy.failedBudgets := None;
     Legacy.failedAudits := None |}.

End Scenario.

(** * Properties *)

(** ** Numbers, strings and effects *)
Module JsFacts.
Import Js.

Lemma gt0_Num (q : Q) : gt0 (Num q) = true ↔ (0 < q)%Q.
Proof.
  unfold gt0, Qlt. simpl. rewrite Z.ltb_lt. lia.
Qed.

Lemma gt0_truthy (a : number) : gt0 a = true → truthy_number a = true.
Proof.
  destruct a as [|q]; simpl; [done|].
  intros H%Z.ltb_lt. apply negb_true_iff, Z.eqb_neq. lia.
Qed.

Lemma truthy_over (overBudget : number) :
  truthy (if gt0 overBudget then Some overBudget else None) = gt0 overBudget.
Proof.
  destruct (gt0 overBudget) eqn:E; simpl; [by apply gt0_truthy | done].
Qed.

(** [Math.round] gives the nearest integer, the upper one at a tie. *)
Lemma Math_round_nearest (x : Q) :
  ∃ n : Z, Math_round (Num x) = Num (inject_Z n) ∧ nearest_half_up x n.
Proof.
  exists (Qfloor (x + (1 # 2))). split; [done|].
  pose proof (Qfloor_le (x + (1 # 2))) as Hle.
  pose proof (Qlt_floor (x + (1 # 2))) as Hlt.
  rewrite inject_Z_plus in Hlt. split.
  - apply (Qplus_le_l _ _ (1 # 2)). ring_simplify. ring_simplify in Hle. exact Hle.
  - apply (Qplus_lt_l _ _ (1 # 2)).
    eapply Qlt_le_trans; [exact Hlt|]. ring_simplify. apply Qle_refl.
Qed.

(** The nearest integer is one integer. *)
Lemma nearest_half_up_unique (x : Q) (a b : Z) :
  nearest_half_up x a → nearest_half_up x b → a = b.
Proof.
  intros [Ha1 Ha2] [Hb1 Hb2].
  pose proof (Qle_lt_trans _ _ _ Ha1 Hb2) as H1.
  pose proof (Qle_lt_trans _ _ _ Hb1 Ha2) as H2.
  unfold Qlt in H1, H2. cbn in H1, H2. lia.
Qed.

(** The integer nearest to [n / 1024], in integers. *)
Lemma nearest_half_up_kb (n e : Z) :
  nearest_half_up (inject_Z n / 1024) e →
  (1024 * e - 512 <= n < 1024 * e + 512)%Z.
Proof.
  intros [Hlo Hhi]. unfold Qle in Hlo. unfold Qlt in Hhi. cbn in Hlo, Hhi. lia.
Qed.

Lemma nearest_half_up_kb_diff (a b e : Z) :
  nearest_half_up ((inject_Z a - inject_Z b) / 1024) e →
  (1024 * e - 512 <= a - b < 1024 * e + 512)%Z.
Proof.
  intros [Hlo Hhi]. unfold Qle in Hlo. unfold Qlt in Hhi. cbn in Hlo, Hhi. lia.
Qed.

Lemma Qred_inject_Z (z : Z) : Qred (inject_Z z) = inject_Z z.
Proof.
  unfold Qred, inject_Z.
  pose proof (Z.ggcd_gcd z 1) as Hg. pose proof (Z.ggcd_correct_divisors z 1) as Hd.
  destruct (Z.ggcd z 1) as [g [a b]]. cbn in Hg, Hd. destruct Hd as [Ha Hb].
  rewrite Z.gcd_1_r in Hg. subst g. f_equal; [lia|].
  assert (b = 1%Z) as -> by lia. done.
Qed.

(** An integer below [2^53] in magnitude prints as its decimal digits. *)
Lemma NumberToString_integer rt (z : Z) :
  (Z.abs z < 2 ^ 53)%Z → NumberToString rt (Num (inject_Z z)) = pretty z.
Proof.
  intros Hbound. unfold NumberToString. rewrite Qred_inject_Z. cbn [Qden Qnum inject_Z].
  by replace (Z.abs z <? 2 ^ 53)%Z with true by (symmetry; apply Z.ltb_lt; lia).
Qed.

(** The difference of two integers is an integer. *)
Lemma sub_integers (a b : Z) :
  sub (Num (inject_Z a)) (Num (inject_Z b)) = Num (inject_Z (a - b)).
Proof.
  unfold sub, Qminus, Qplus, Qopp, inject_Z. cbn. do 2 f_equal. lia.
Qed.

Lemma filter_length_all {A} (p : A → bool) (l : list A) :
  length (List.filter p l) = length l ↔ ∀ x, x ∈ l → p x = true.
Proof.
  induction l as [|a l IH]; simpl.
  - split; [intros _ x Hx; inversion Hx | done].
  - pose proof (List.filter_length_le p l) as Hle.
    destruct (p a) eqn:Ea; simpl.
    + split.
      * intros Hlen x Hx. apply elem_of_cons in Hx as [->|Hx]; [done|].
        apply IH; [lia | done].
      * intros Hall. f_equal. apply IH. intros x Hx. apply Hall. by apply list_elem_of_further.
    + split; [lia|]. intros Hall. specialize (Hall a). rewrite Ea in Hall.
      discriminate Hall. apply list_elem_of_here.
Qed.

Lemma elem_of_filter_bool {A} (p : A → bool) (l : list A) (x : A) :
  x ∈ List.filter p l ↔ x ∈ l ∧ p x = true.
Proof. rewrite !list_elem_of_In. apply List.filter_In. Qed.

Lemma not_elem_of_filter_bool {A} (p : A → bool) (l : list A) (x : A) :
  x ∈ l → (x ∉ List.filter p l ↔ p x = false).
Proof.
  intros Hin. rewrite elem_of_filter_bool. destruct (p x).
  - split; [|done]. intros Hno. by destruct Hno.
  - split; [done|]. by intros _ [_ ?].
Qed.

End JsFacts.

(** ** Loops that print, objects and descriptors *)
Module LighthouseFacts.
Import Js Lighthouse JsFacts.

(** A [forEach] whose body prints one line per element prints them in
    order and does not throw. *)
Lemma forEach_log {A} (f : A → Eff unit) (text : A → string) (xs : list A) :
  (∀ x, x ∈ xs → f x = log (text x)) →
  forEach f xs = ((λ x, Log (text x)) <$> xs, inr tt).
Proof.
  induction xs as [|x xs IH]; intros Hf; [done|].
  simpl. rewrite (Hf x) by apply list_elem_of_here.
  rewrite IH; [done|]. intros y Hy. apply Hf. by apply list_elem_of_further.
Qed.

Lemma section_log {A} rt heading (f : A → Eff unit) (text : A → string) (xs : list A) :
  (∀ x, x ∈ xs → f x = log (text x)) →
  section rt heading f xs = (printed rt heading (text <$> xs), inr tt).
Proof.
  intros Hf. unfold section, printed. destruct xs as [|x xs]; [done|].
  rewrite (forEach_log f text) by done. cbn [bind log emit fmap list_fmap app].
  by rewrite <- list_fmap_compose.
Qed.

Lemma elem_of_printed rt heading (lines : list string) line :
  line ∈ lines → Log line ∈ printed rt heading lines.
Proof.
  intros Hin. unfold printed. destruct lines as [|l ls]; [by apply elem_of_nil in Hin|].
  apply list_elem_of_further. by apply list_elem_of_fmap_2.
Qed.

Lemma printed_nil rt heading (lines : list string) :
  printed rt heading lines = [] ↔ lines = [].
Proof. unfold printed. by destruct lines. Qed.

(** The request-count lines are printed for groups that have a
    descriptor, so [split] is never called on [undefined]. *)
Lemma requestCountLine_defined rt (items : list Item) (item : Item) :
  item ∈ List.filter (λ audit, defined (countOverBudget audit)) items →
  requestCountLine rt item = log (requestCountShown rt item).
Proof.
  intros [_ Hd]%elem_of_filter_bool. unfold requestCountLine, requestCountShown.
  by destruct (countOverBudget item).
Qed.

Lemma keys_put {V} (o : object V) key v : keys (put o key v) = keys o.
Proof.
  unfold keys. induction o as [|[k v0] o IH]; [done|]. simpl.
  destruct (String.eqb k key); simpl; [done | f_equal; exact IH].
Qed.

Lemma get_put {V} (o : object V) key key' v :
  get (put o key v) key' =
    if String.eqb key key' then (λ _, v) <$> get o key' else get o key'.
Proof.
  induction o as [|[k v0] o IH]; simpl.
  - by destruct (String.eqb key key').
  - destruct (String.eqb k key) eqn:Ek; simpl.
    + apply String.eqb_eq in Ek as ->.
      by destruct (String.eqb key key').
    + destruct (String.eqb k key') eqn:Ek'; [|done].
      apply String.eqb_eq in Ek' as ->.
      destruct (String.eqb key key') eqn:E; [|done].
      apply String.eqb_eq in E as ->. by rewrite String.eqb_refl in Ek.
Qed.

Lemma get_is_Some {V} (o : object V) key : key ∈ keys o ↔ is_Some (get o key).
Proof.
  unfold keys. induction o as [|[k v] o IH]; simpl.
  - split; [by intros ?%elem_of_nil | by intros [? ?]].
  - rewrite elem_of_cons. destruct (String.eqb k key) eqn:Ek.
    + apply String.eqb_eq in Ek as ->. split; [by eexists | by left].
    + apply String.eqb_neq in Ek. rewrite <- IH.
      split; [by intros [?|?] | by right].
Qed.

(** A numeral ends at the first blank, so [split_head] returns it. *)
Lemma digits_no_blank acc (d : string) n :
  digits acc d = Some n → trim_start d = d ∧ trim_end d = d.
Proof.
  revert acc. induction d as [|c d IH]; intros acc; [done|]. simpl.
  destruct (digit c) as [v|] eqn:Ec; [|done]. intros Hd.
  assert (is_white c = false) as Hw.
  { unfold digit in Ec. unfold is_white.
    destruct (_ && _)%bool eqn:E in Ec; [|done].
    apply andb_true_iff in E as [E1%Nat.leb_le E2%Nat.leb_le].
    apply orb_false_iff. split.
    - apply Nat.eqb_neq. lia.
    - apply andb_false_iff. right. apply Nat.leb_gt. lia. }
  rewrite Hw. split; [done|].
  destruct (IH _ Hd) as [_ Ht]. rewrite Ht. by destruct d.
Qed.

Lemma split_head_numeral acc (d : string) n (rest : string) :
  digits acc d = Some n →
  split_head " requests" (d +:+ " requests" +:+ rest) = d.
Proof.
  revert acc. induction d as [|c d IH]; intros acc; [intros _; reflexivity|].
  cbn [digits]. destruct (digit c) as [v|] eqn:Ec; [|done]. intros Hd.
  change (String c d +:+ " requests" +:+ rest)
    with (String c (d +:+ " requests" +:+ rest)).
  change (split_head ?sep (String c ?s))
    with (if starts_with sep (String c s) then "" else String c (split_head sep s)).
  assert (starts_with " requests" (String c (d +:+ " requests" +:+ rest)) = false)
    as ->.
  { cbn [starts_with]. destruct (Ascii.eqb_spec " " c) as [<-|]; done. }
  f_equal. by eapply IH.
Qed.

Lemma digits_nonneg acc (d : string) n :
  digits acc d = Some n → (0 <= acc)%Z → (0 <= n)%Z.
Proof.
  revert acc. induction d as [|c d IH]; intros acc; cbn [digits].
  - intros [= <-]. done.
  - destruct (digit c) as [v|] eqn:Ec; [|done]. intros Hd Hacc.
    apply (IH _ Hd). unfold digit in Ec.
    destruct (_ && _)%bool in Ec; [|done]. injection Ec as <-. lia.
Qed.

(** A numeral below [2^53] is read as its value. *)
Lemma StringToNumber_numeral rt (d : string) n :
  d ≠ "" → digits 0 d = Some n → (n < 2 ^ 53)%Z →
  StringToNumber rt d = Num (inject_Z n).
Proof.
  intros Hne Hd Hbound. unfold StringToNumber, trim.
  destruct (digits_no_blank _ _ _ Hd) as [-> ->].
  destruct (String.eqb d "") eqn:E; [by apply String.eqb_eq in E|].
  rewrite Hd.
  by replace (n <? 2 ^ 53)%Z with true by (symmetry; apply Z.ltb_lt; lia).
Qed.

End LighthouseFacts.

(** ** [src/lib/index.js] *)
Module IndexFacts.
Import Js Lighthouse Index JsFacts LighthouseFacts.

Lemma annotate_idemp sb (audit : Audit) :
  annotate sb (annotate sb audit) = annotate sb audit.
Proof.
  unfold annotate. destruct audit as [i [m|] d tb ob]; simpl; done.
Qed.

Lemma keys_visit sb (o : object Audit) key : keys (visit sb o key) = keys o.
Proof. unfold visit. destruct (get o key); [apply keys_put | done]. Qed.

Lemma get_visit sb (o : object Audit) k key :
  get (visit sb o k) key =
    if String.eqb k key then annotate sb <$> get o key else get o key.
Proof.
  unfold visit. destruct (get o k) as [a|] eqn:Ea.
  - rewrite get_put. destruct (String.eqb_spec k key) as [<-|]; [|done].
    by rewrite Ea.
  - destruct (String.eqb_spec k key) as [<-|]; [|done]. by rewrite Ea.
Qed.

Lemma keys_foldl_visit sb ks (o : object Audit) :
  keys (foldl (visit sb) o ks) = keys o.
Proof.
  revert o. induction ks as [|k ks IH]; intros o; [done|].
  simpl. by rewrite IH, keys_visit.
Qed.

Lemma get_foldl_visit sb ks (o : object Audit) key :
  get (foldl (visit sb) o ks) key =
    if decide (key ∈ ks) then annotate sb <$> get o key else get o key.
Proof.
  revert o. induction ks as [|k ks IH]; intros o; cbn [foldl].
  - case_decide as Hin; [by apply elem_of_nil in Hin | done].
  - rewrite IH, get_visit.
    destruct (String.eqb_spec k key) as [<-|Hne].
    + destruct (decide (k ∈ k :: ks)) as [_|Hout];
        [|by destruct Hout; apply list_elem_of_here].
      case_decide; [|done].
      destruct (get o k); simpl; [by rewrite annotate_idemp | done].
    + destruct (decide (key ∈ ks)) as [Hin|Hout].
      * destruct (decide (key ∈ k :: ks)) as [_|Hout]; [done|].
        by destruct Hout; apply list_elem_of_further.
      * destruct (decide (key ∈ k :: ks)) as [[?|?]%elem_of_cons|_]; done.
Qed.

(** The loop keeps the keys and leaves at every key the annotated audit. *)
Lemma keys_annotateAll sb (o : object Audit) : keys (annotateAll sb o) = keys o.
Proof. apply keys_foldl_visit. Qed.

Lemma get_annotateAll sb (o : object Audit) key :
  get (annotateAll sb o) key = annotate sb <$> get o key.
Proof.
  unfold annotateAll. rewrite get_foldl_visit.
  destruct (decide (key ∈ keys o)) as [|Hout]; [done|].
  rewrite get_is_Some in Hout. destruct (get o key); [|done].
  exfalso. apply Hout. by eexists.
Qed.

Lemma overBudgetBy_at_annotateAll sb (o : object Audit) key (audit : Audit) :
  get o key = Some audit →
  overBudgetBy_at (annotateAll sb o) key = overBudgetBy (annotate sb audit).
Proof.
  intros Hget. unfold overBudgetBy_at. by rewrite get_annotateAll, Hget.
Qed.

Lemma elem_of_successfulSpeedAudits (o : object Audit) key :
  key ∈ successfulSpeedAudits o ↔
  key ∈ keys o ∧ truthy (overBudgetBy_at o key) = false.
Proof.
  unfold successfulSpeedAudits. rewrite elem_of_filter_bool.
  by rewrite negb_true_iff.
Qed.

Lemma elem_of_failedSpeedAudits (o : object Audit) key :
  key ∈ failedSpeedAudits o ↔
  key ∈ keys o ∧ truthy (overBudgetBy_at o key) = true.
Proof. unfold failedSpeedAudits. by rewrite elem_of_filter_bool. Qed.

(** The run is valid exactly when no item and no audit is over budget. *)
Lemma isValid_all (o : object Audit) (items : list Item) :
  isValid o items = true ↔
  (∀ item, item ∈ items → withinBudget item = true)
  ∧ (∀ key, key ∈ keys o → truthy (overBudgetBy_at o key) = false).
Proof.
  unfold isValid, successfulBundleAudits, successfulSpeedAudits.
  rewrite andb_true_iff, !Nat.eqb_eq, !filter_length_all.
  by setoid_rewrite negb_true_iff.
Qed.

(** After the loop, the audit at [key] is over budget exactly when its
    overage is greater than 0. *)
Lemma overBudgetBy_at_measured sb (o : object Audit) key (audit : Audit)
    (measured threshold : Q) :
  get o key = Some audit →
  numericValue audit = Some (Num measured) →
  sb !! id audit = Some (Num threshold) →
  key ∈ keys (annotateAll sb o)
  ∧ truthy (overBudgetBy_at (annotateAll sb o) key)
    = gt0 (Num (measured - threshold)).
Proof.
  intros Hget Hnum Hsb. split.
  - rewrite keys_annotateAll. apply get_is_Some. by eexists.
  - rewrite (overBudgetBy_at_annotateAll _ _ _ _ Hget).
    unfold annotate. rewrite Hnum, Hsb. apply truthy_over.
Qed.

End IndexFacts.

(** ** [main] of [src/lib/index.js] *)
Module IndexRun.
Import Js Lighthouse Index JsFacts LighthouseFacts IndexFacts.

(** The text of the line printed for a key of [failedSpeedAudits]. *)
Lemma speedLine_key rt (o : object Audit) key :
  key ∈ failedSpeedAudits o →
  speedLine rt o key = log (from_option (speedText rt) "" (get o key)).
Proof.
  intros [Hkey _]%elem_of_failedSpeedAudits.
  apply get_is_Some in Hkey as [audit Hget].
  unfold speedLine. by rewrite Hget.
Qed.

(** The failure branch throws nothing and prints its three blocks. *)
Lemma diagnostics_printed rt (o : object Audit) (items : list Item) :
  diagnostics rt o items =
    (printed rt "----- Failed page speed budget audits ------"
       ((λ key, from_option (speedText rt) "" (get o key)) <$> failedSpeedAudits o)
     ++ printed rt "----- Failed resource count budget audits ------"
          (requestCountShown rt <$> failedRequestCountAudits items)
     ++ printed rt "----- Failed resource size budget audits ------"
          (sizeText rt <$> failedBundleAudits items),
     inr tt).
Proof.
  unfold diagnostics.
  rewrite (section_log rt _ _ _ _ (speedLine_key rt o)).
  rewrite (section_log rt _ (requestCountLine rt) (requestCountShown rt))
    by apply requestCountLine_defined.
  rewrite (section_log rt _ (sizeLine rt) (sizeText rt)) by done.
  done.
Qed.

(** An invalid run prints at least one block. *)
Lemma diagnostics_nonempty rt (o : object Audit) (items : list Item) :
  isValid o items = false → (diagnostics rt o items).1 ≠ [].
Proof.
  intros Hinvalid Hnil. rewrite diagnostics_printed in Hnil. cbn [fst] in Hnil.
  apply app_eq_nil in Hnil as [H1 [H2 H3]%app_eq_nil].
  apply printed_nil, fmap_nil_inv in H1, H2, H3.
  apply not_true_iff_false in Hinvalid. apply Hinvalid, isValid_all. split.
  - intros item Hitem. unfold withinBudget.
    destruct (sizeOverBudget item) as [n|] eqn:Es.
    + assert (item ∈ failedBundleAudits items) as Hin.
      { apply elem_of_filter_bool. by rewrite Es. }
      rewrite H3 in Hin. by apply elem_of_nil in Hin.
    + destruct (countOverBudget item) as [d|] eqn:Ec; [|done].
      assert (item ∈ failedRequestCountAudits items) as Hin.
      { apply elem_of_filter_bool. by rewrite Ec. }
      rewrite H2 in Hin. by apply elem_of_nil in Hin.
  - intros key Hkey. destruct (truthy (overBudgetBy_at o key)) eqn:E; [|done].
    assert (key ∈ failedSpeedAudits o) as Hin by by apply elem_of_failedSpeedAudits.
    rewrite H1 in Hin. by apply elem_of_nil in Hin.
Qed.

Lemma checkBudgets_items rt (data : Report) (items : list Item) :
  let speedResults := annotateAll (speedBudgets data) (audits data) in
  itemsOf speedResults = Some items →
  checkBudgets rt data =
    if isValid speedResults items
    then ([Log "All budgets passed. âœ”"], inr Resolved)
    else ((diagnostics rt speedResults items).1, inr (Rejected "Budgets broken")).
Proof.
  intros speedResults Hitems. unfold checkBudgets. fold speedResults.
  unfold itemsOf in Hitems.
  destruct (get speedResults "performance-budget") as [audit|]; [|done].
  injection Hitems as <-.
  change (details <$> Some audit) with (Some (details audit)).
  assert (destructure_items (Some (details audit))
          = ret (default [] (details audit ≫= items))) as ->.
  { by destruct (details audit). }
  cbn [bind ret app]. destruct (isValid _ _); [done|].
  rewrite diagnostics_printed. cbn [fst bind ret]. by rewrite app_nil_r.
Qed.

(** A run that obtains a report does what [checkBudgets] does with it,
    after the preamble. *)
Lemma main_obtains rt (w : World) url isCustom (data : Report) :
  obtains w url isCustom data →
  main rt w =
    match checkBudgets rt data with
    | (out, inr outcome) => (preamble rt url isCustom ++ out, outcome)
    | (out, inl e) =>
        (preamble rt url isCustom ++ out ++ [LogError e],
         Rejected "Failed to get lighthouse data")
    end.
Proof.
  intros (Hargv & Hurl & Hbound & Hlaunch & Hconfig & Hengine & Hkill).
  unfold main, attempt, launchChromeAndRunLighthouse, preamble.
  rewrite Hargv, Hbound, Hlaunch, Hconfig, Hengine, Hkill.
  destruct url as [|c url]; [done|].
  destruct isCustom; cbn [bind ret lift emit log];
    destruct (checkBudgets rt data) as [out [e|outcome]]; reflexivity.
Qed.

Lemma main_invalid rt (w : World) url isCustom (data : Report) (items : list Item) :
  obtains w url isCustom data →
  let speedResults := annotateAll (speedBudgets data) (audits data) in
  itemsOf speedResults = Some items →
  isValid speedResults items = false →
  main rt w = (preamble rt url isCustom ++ (diagnostics rt speedResults items).1,
               Rejected "Budgets broken").
Proof.
  intros Hrun speedResults Hitems Hinvalid.
  rewrite (main_obtains rt w url isCustom data Hrun).
  rewrite (checkBudgets_items rt data items Hitems).
  fold speedResults. by rewrite Hinvalid.
Qed.

Lemma failed_audit_invalid (o : object Audit) (items : list Item) key :
  key ∈ failedSpeedAudits o → isValid o items = false.
Proof.
  intros [Hkey Hover]%elem_of_failedSpeedAudits.
  apply not_true_iff_false. intros [_ Hall]%isValid_all.
  specialize (Hall key Hkey). congruence.
Qed.

Lemma over_item_invalid (o : object Audit) (items : list Item) (item : Item) :
  item ∈ items → withinBudget item = false → isValid o items = false.
Proof.
  intros Hin Hover. apply not_true_iff_false. intros [Hall _]%isValid_all.
  specialize (Hall item Hin). congruence.
Qed.

(** Where the lines of the three blocks end up. *)
Lemma speed_line_printed rt (o : object Audit) (items : list Item) key audit :
  key ∈ failedSpeedAudits o → get o key = Some audit →
  Log (speedText rt audit) ∈ (diagnostics rt o items).1.
Proof.
  intros Hfailed Hget. rewrite diagnostics_printed. cbn [fst].
  apply elem_of_app. left. apply elem_of_printed.
  apply list_elem_of_fmap. exists key. by rewrite Hget.
Qed.

Lemma count_line_printed rt (o : object Audit) (items : list Item) item descriptor :
  item ∈ items → countOverBudget item = Some descriptor →
  Log (requestCountText rt item descriptor) ∈ (diagnostics rt o items).1.
Proof.
  intros Hin Hcount. rewrite diagnostics_printed. cbn [fst].
  apply elem_of_app. right. apply elem_of_app. left. apply elem_of_printed.
  apply list_elem_of_fmap. exists item. split.
  - unfold requestCountShown. by rewrite Hcount.
  - apply elem_of_filter_bool. by rewrite Hcount.
Qed.

Lemma size_line_printed rt (o : object Audit) (items : list Item) item amount :
  item ∈ items → sizeOverBudget item = Some amount →
  Log (sizeText rt item) ∈ (diagnostics rt o items).1.
Proof.
  intros Hin Hsize. rewrite diagnostics_printed. cbn [fst].
  apply elem_of_app. right. apply elem_of_app. right. apply elem_of_printed.
  apply list_elem_of_fmap. exists item. split; [done|].
  apply elem_of_filter_bool. by rewrite Hsize.
Qed.

End IndexRun.

(** ** The older copy *)
Module LegacyFacts.
Import Js Lighthouse Legacy JsFacts LighthouseFacts.

Lemma annotate_measured (auditResults : object Audit) (audit : Budget)
    (result : Audit) (measured : number) :
  get auditResults (id audit) = Some result →
  numericValue result = Some measured →
  annotate auditResults audit =
    {| id := id audit; timeBudget := timeBudget audit;
       actualSpeed := Some measured;
       overBudgetBy :=
         let overBudget := sub measured (ToNumber (timeBudget audit)) in
         if gt0 overBudget then Some overBudget else None |}.
Proof.
  intros Hget Hnum. unfold annotate. rewrite Hget.
  destruct result as [nv d]. simpl in Hnum. by rewrite Hnum.
Qed.

Lemma annotate_unmeasured (auditResults : object Audit) (audit : Budget) :
  (∀ result, get auditResults (id audit) = Some result →
             numericValue result = None) →
  annotate auditResults audit = audit.
Proof.
  intros Hnone. unfold annotate.
  destruct (get auditResults (id audit)) as [[nv d]|]; [|done].
  specialize (Hnone _ eq_refl). simpl in Hnone. by subst nv.
Qed.

Lemma elem_of_successful_entries (speedAudits : list Budget) (audit : Budget) :
  audit ∈ successfulSpeedAudits speedAudits ↔
  audit ∈ speedAudits ∧ truthy (overBudgetBy audit) = false.
Proof.
  unfold successfulSpeedAudits. by rewrite elem_of_filter_bool, negb_true_iff.
Qed.

Lemma elem_of_failed_entries (speedAudits : list Budget) (audit : Budget) :
  audit ∈ failedSpeedAudits speedAudits ↔
  audit ∈ speedAudits ∧ truthy (overBudgetBy audit) = true.
Proof. unfold failedSpeedAudits. by rewrite elem_of_filter_bool. Qed.

End LegacyFacts.

(** ** The statements of the specification *)
Module Claims.
Import Js Lighthouse JsFacts LighthouseFacts.

(** Over budget by a positive amount, within otherwise. *)
Lemma positive_or_not (q : Q) :
  (gt0 (Num q) = true ↔ (0 < q)%Q) ∧ (gt0 (Num q) = false ↔ ¬ (0 < q)%Q).
Proof.
  split; [apply gt0_Num|]. rewrite <- gt0_Num. by destruct (gt0 (Num q)).
Qed.

Lemma zero_not_positive (q : Q) : (q == 0)%Q → ¬ (0 < q)%Q.
Proof. intros Hz Hlt. rewrite Hz in Hlt. by apply Qlt_irrefl in Hlt. Qed.

(** C1.  A timing audit that has a configured threshold and a numeric
    measurement is listed among the failed audits (OVER) exactly when
    measured - threshold > 0, and among the successful ones (WITHIN)
    otherwise, in particular when the difference is 0.  The first part is
    [src/lib/index.js], where the audits of the report are classified by
    key; the second the older copy, where the entries of [audit.json]
    are. *)
Theorem timing_over_iff_positive_overage :
  (∀ (speedBudgets : gmap string number) (audits : object Index.Audit)
     (key : string) (audit : Index.Audit) (measured threshold : Q),
     get audits key = Some audit →
     Index.numericValue audit = Some (Num measured) →
     speedBudgets !! Index.id audit = Some (Num threshold) →
     let speedResults := Index.annotateAll speedBudgets audits in
     (key ∈ Index.failedSpeedAudits speedResults ↔ (0 < measured - threshold)%Q)
     ∧ (key ∈ Index.successfulSpeedAudits speedResults
        ↔ ¬ (0 < measured - threshold)%Q)
     ∧ ((measured - threshold == 0)%Q
        → key ∈ Index.successfulSpeedAudits speedResults))
  ∧ (∀ (auditResults : object Legacy.Audit) (speedAudits : list Legacy.Budget)
       (audit : Legacy.Budget) (result : Legacy.Audit) (measured threshold : Q),
       audit ∈ speedAudits →
       Legacy.timeBudget audit = Some (Num threshold) →
       get auditResults (Legacy.id audit) = Some result →
       Legacy.numericValue result = Some (Num measured) →
       let annotated := Legacy.annotate auditResults <$> speedAudits in
       let audit' := Legacy.annotate auditResults audit in
       (audit' ∈ Legacy.failedSpeedAudits annotated ↔ (0 < measured - threshold)%Q)
       ∧ (audit' ∈ Legacy.successfulSpeedAudits annotated
          ↔ ¬ (0 < measured - threshold)%Q)
       ∧ ((measured - threshold == 0)%Q
          → audit' ∈ Legacy.successfulSpeedAudits annotated)).
Proof.
  split.
  - intros sb audits key audit measured threshold Hget Hnum Hsb speedResults.
    destruct (IndexFacts.overBudgetBy_at_measured
                sb audits key audit measured threshold Hget Hnum Hsb)
      as [Hkey Hover].
    fold speedResults in Hkey, Hover.
    rewrite IndexFacts.elem_of_failedSpeedAudits,
      IndexFacts.elem_of_successfulSpeedAudits, Hover.
    destruct (positive_or_not (measured - threshold)) as [Hpos Hneg].
    rewrite Hpos, Hneg. pose proof (zero_not_positive (measured - threshold)).
    tauto.
  - intros ar speedAudits audit result measured threshold Hin Hbudget Hget Hnum
      annotated audit'.
    assert (audit' ∈ annotated) as Hin' by by apply list_elem_of_fmap_2.
    assert (truthy (Legacy.overBudgetBy audit')
            = gt0 (Num (measured - threshold))) as Hover.
    { unfold audit'. rewrite (LegacyFacts.annotate_measured _ _ _ _ Hget Hnum).
      rewrite Hbudget. apply truthy_over. }
    rewrite LegacyFacts.elem_of_failed_entries,
      LegacyFacts.elem_of_successful_entries, Hover.
    destruct (positive_or_not (measured - threshold)) as [Hpos Hneg].
    rewrite Hpos, Hneg. pose proof (zero_not_positive (measured - threshold)).
    tauto.
Qed.

Lemma timing_over_witness :
  (let speedResults :=
     Index.annotateAll (Index.speedBudgets (Scenario.paint 2000 2001))
                       (Index.audits (Scenario.paint 2000 2001)) in
   "first-contentful-paint" ∈ Index.failedSpeedAudits speedResults
   ↔ (0 < inject_Z 2001 - inject_Z 2000)%Q)
  ∧ (let auditResults := [("first-contentful-paint", Scenario.measuredAt 2000)] in
     let audit := Scenario.budget "first-contentful-paint" 2000 in
     Legacy.annotate auditResults audit
       ∈ Legacy.successfulSpeedAudits (Legacy.annotate auditResults <$> [audit])).
Proof.
  split.
  - apply (proj1 timing_over_iff_positive_overage
             (Index.speedBudgets (Scenario.paint 2000 2001))
             (Index.audits (Scenario.paint 2000 2001))
             "first-contentful-paint" (Scenario.fcp 2001).2
             (inject_Z 2001) (inject_Z 2000)); reflexivity.
  - apply (proj2 timing_over_iff_positive_overage
             [("first-contentful-paint", Scenario.measuredAt 2000)]
             [Scenario.budget "first-contentful-paint" 2000]
             (Scenario.budget "first-contentful-paint" 2000)
             (Scenario.measuredAt 2000) (inject_Z 2000) (inject_Z 2000));
      [apply list_elem_of_here | reflexivity..].
Defined.

(** The example of the specification: a budget of 2000 ms is kept at
    2000 ms and broken, by 1 ms, at 2001 ms. *)
Example at_budget_and_one_over :
  Index.successfulSpeedAudits
    (Index.annotateAll (Index.speedBudgets (Scenario.paint 2000 2000))
                       (Index.audits (Scenario.paint 2000 2000)))
    = ["first-contentful-paint"; "performance-budget"]
  ∧ Index.failedSpeedAudits
      (Index.annotateAll (Index.speedBudgets (Scenario.paint 2000 2001))
                         (Index.audits (Scenario.paint 2000 2001)))
    = ["first-contentful-paint"]
  ∧ Index.overBudgetBy_at
      (Index.annotateAll (Index.speedBudgets (Scenario.paint 2000 2001))
                         (Index.audits (Scenario.paint 2000 2001)))
      "first-contentful-paint"
    = Some (Num (inject_Z 2001 - inject_Z 2000)).
Proof. by vm_compute. Qed.

Lemma isValid_lengths (o : object Index.Audit) (items : list Item) :
  Index.isValid o items = true ↔
  length (Index.successfulSpeedAudits o) = length (keys o)
  ∧ length (Index.successfulBundleAudits items) = length items.
Proof.
  unfold Index.isValid. rewrite andb_true_iff, !Nat.eqb_eq. tauto.
Qed.

Lemma isValid_listed (o : object Index.Audit) (items : list Item) :
  Index.isValid o items = true ↔
  (∀ key, key ∈ keys o → key ∈ Index.successfulSpeedAudits o)
  ∧ (∀ item, item ∈ items → item ∈ Index.successfulBundleAudits items).
Proof.
  rewrite IndexFacts.isValid_all. unfold Index.successfulBundleAudits.
  setoid_rewrite IndexFacts.elem_of_successfulSpeedAudits.
  setoid_rewrite elem_of_filter_bool.
  split; intros [H1 H2]; (split; [intros key Hkey | intros item Hitem]).
  - split; [done | by apply H2].
  - split; [done | by apply H1].
  - by apply H2.
  - by apply H1.
Qed.

(** C2.  A run of [src/lib/index.js] that obtains a report with a
    resource table resolves, after the success message, exactly when the
    count of successful timing audits equals the number of audits and the
    count of successful resource items equals the number of items, that
    is when every audit and every item is listed as successful; otherwise
    it prints the diagnostics, at least one block, and rejects with
    "Budgets broken". *)
Theorem run_succeeds_iff_all_within (rt : Runtime) (w : Index.World)
    (url : string) (isCustom : bool) (data : Index.Report) (items : list Item) :
  Index.obtains w url isCustom data →
  let speedResults :=
    Index.annotateAll (Index.speedBudgets data) (Index.audits data) in
  Index.itemsOf speedResults = Some items →
  let success := (Index.main rt w).2 = Resolved in
  (success ↔
     length (Index.successfulSpeedAudits speedResults) = length (keys speedResults)
     ∧ length (Index.successfulBundleAudits items) = length items)
  ∧ (success ↔
       (∀ key, key ∈ keys speedResults
               → key ∈ Index.successfulSpeedAudits speedResults)
       ∧ (∀ item, item ∈ items → item ∈ Index.successfulBundleAudits items))
  ∧ (success →
       (Index.main rt w).1
       = Index.preamble rt url isCustom ++ [Log "All budgets passed. âœ”"])
  ∧ (¬ success →
       (Index.main rt w).2 = Rejected "Budgets broken"
       ∧ (Index.diagnostics rt speedResults items).1 ≠ []
       ∧ (Index.main rt w).1
         = Index.preamble rt url isCustom
           ++ (Index.diagnostics rt speedResults items).1).
Proof.
  intros Hrun speedResults Hitems success. unfold success.
  rewrite (IndexRun.main_obtains rt w url isCustom data Hrun).
  rewrite (IndexRun.checkBudgets_items rt data items Hitems).
  fold speedResults.
  rewrite <- isValid_lengths, <- isValid_listed.
  destruct (Index.isValid speedResults items) eqn:Hvalid; cbn [fst snd].
  - repeat split; done.
  - repeat split; try done.
    by apply IndexRun.diagnostics_nonempty.
Qed.

Lemma run_succeeds_witness :
  (Index.main monochrome (Scenario.run (Scenario.paint 2000 2000))).2 = Resolved
  ↔ length (Index.successfulSpeedAudits
              (Index.annotateAll (Index.speedBudgets (Scenario.paint 2000 2000))
                                 (Index.audits (Scenario.paint 2000 2000))))
    = length (keys (Index.annotateAll (Index.speedBudgets (Scenario.paint 2000 2000))
                                      (Index.audits (Scenario.paint 2000 2000))))
    ∧ length (Index.successfulBundleAudits []) = length (@nil Item).
Proof.
  refine (proj1 (run_succeeds_iff_all_within monochrome
                   (Scenario.run (Scenario.paint 2000 2000))
                   "https://example.com" true (Scenario.paint 2000 2000) [] _ _)).
  - repeat split; done.
  - reflexivity.
Defined.

(** C3 at the failing input: a group whose size-over-budget field is
    present with the amount 0.  The filter that decides validity (lines
    91-95) tests the field for truthiness: the group counts as successful
    in both copies and the run with it alone resolves.  The filter that
    lists the size failures (lines 110-112) tests the same field for
    presence: the group is among the failed ones and, once another group
    has failed the run, its line is printed. *)
Theorem present_and_zero_is_within :
  is_Some (sizeOverBudget Scenario.exact)
  ∧ Scenario.exact ∈ Index.successfulBundleAudits [Scenario.exact]
  ∧ Scenario.exact ∈ Legacy.successfulBudgets [Scenario.exact]
  ∧ Scenario.exact ∈ Index.failedBundleAudits [Scenario.exact]
  ∧ Index.main monochrome (Scenario.run (Scenario.table [Scenario.exact]))
    = (Index.preamble monochrome "https://example.com" true
       ++ [Log "All budgets passed. âœ”"], Resolved)
  ∧ Index.main monochrome
      (Scenario.run (Scenario.table [Scenario.scripts; Scenario.exact]))
    = (Index.preamble monochrome "https://example.com" true
       ++ [Log "----- Failed resource size budget audits ------";
           Log "scripts: Expected 250kb download size but got 300kb";
           Log "fonts: Expected 40kb download size but got 40kb"],
       Rejected "Budgets broken").
Proof.
  split; [by eexists|].
  split; [apply elem_of_filter_bool; split; [apply list_elem_of_here | by vm_compute]|].
  split; [apply elem_of_filter_bool; split; [apply list_elem_of_here | by vm_compute]|].
  split; [apply elem_of_filter_bool; split; [apply list_elem_of_here | by vm_compute]|].
  split; by vm_compute.
Qed.

(** C4, as the specification words it, fails: an audit that has a budget
    and no numeric measurement is counted, both among the successful
    audits and in the total. *)
Lemma unmeasured_is_counted :
  let data := Scenario.unmeasured in
  let speedResults :=
    Index.annotateAll (Index.speedBudgets data) (Index.audits data) in
  is_Some (Index.speedBudgets data !! "interactive")
  ∧ (Index.numericValue <$> get (Index.audits data) "interactive") = Some None
  ∧ "interactive" ∈ Index.successfulSpeedAudits speedResults
  ∧ "interactive" ∈ keys speedResults
  ∧ length (Index.successfulSpeedAudits speedResults) = 2
  ∧ length (keys speedResults) = 2.
Proof.
  split; [by eexists|]. split; [done|]. split; [|split; [|done]].
  - apply list_elem_of_here.
  - apply list_elem_of_here.
Qed.

(** C4, amended.  An identifier that has a budget and no numeric
    measurement in the report is never counted as a failure, and whether
    it is counted at all depends on the case.  In [src/lib/index.js]:
    an identifier that is no key of the report is in none of the lists,
    and an audit present without a measurement is left as it was, is
    counted in the total and, when it carries no [overBudgetBy], among the
    successful audits.  In the older copy an entry of [audit.json]
    without a measurement in the report is left as it was, is counted in
    the total and, when it carries no [overBudgetBy], among the
    successful entries. *)
Theorem unmeasured_never_fails :
  (∀ (speedBudgets : gmap string number) (audits : object Index.Audit)
     (identifier : string),
     identifier ∉ keys audits →
     let speedResults := Index.annotateAll speedBudgets audits in
     (identifier ∉ keys speedResults)
     ∧ (identifier ∉ Index.successfulSpeedAudits speedResults)
     ∧ (identifier ∉ Index.failedSpeedAudits speedResults))
  ∧ (∀ (speedBudgets : gmap string number) (audits : object Index.Audit)
       (key : string) (audit : Index.Audit),
       get audits key = Some audit →
       Index.numericValue audit = None →
       let speedResults := Index.annotateAll speedBudgets audits in
       get speedResults key = Some audit
       ∧ key ∈ keys speedResults
       ∧ (Index.overBudgetBy audit = None →
          key ∈ Index.successfulSpeedAudits speedResults
          ∧ key ∉ Index.failedSpeedAudits speedResults))
  ∧ (∀ (auditResults : object Legacy.Audit) (speedAudits : list Legacy.Budget)
       (audit : Legacy.Budget),
       audit ∈ speedAudits →
       (∀ result, get auditResults (Legacy.id audit) = Some result →
                  Legacy.numericValue result = None) →
       let annotated := Legacy.annotate auditResults <$> speedAudits in
       Legacy.annotate auditResults audit = audit
       ∧ audit ∈ annotated
       ∧ (Legacy.overBudgetBy audit = None →
          audit ∈ Legacy.successfulSpeedAudits annotated
          ∧ audit ∉ Legacy.failedSpeedAudits annotated)).
Proof.
  split; [|split].
  - intros sb audits identifier Hout speedResults.
    assert (identifier ∉ keys speedResults) as Hout'.
    { unfold speedResults. by rewrite IndexFacts.keys_annotateAll. }
    rewrite IndexFacts.elem_of_successfulSpeedAudits,
      IndexFacts.elem_of_failedSpeedAudits. tauto.
  - intros sb audits key audit Hget Hnum speedResults.
    assert (get speedResults key = Some audit) as Hget'.
    { unfold speedResults. rewrite IndexFacts.get_annotateAll, Hget.
      cbn [fmap option_fmap option_map]. unfold Index.annotate. by rewrite Hnum. }
    assert (key ∈ keys speedResults) as Hkey.
    { apply get_is_Some. by eexists. }
    split; [done|]. split; [done|]. intros Hfresh.
    rewrite IndexFacts.elem_of_successfulSpeedAudits,
      IndexFacts.elem_of_failedSpeedAudits.
    unfold Index.overBudgetBy_at. rewrite Hget'. cbn [mbind option_bind].
    rewrite Hfresh. split; [done|]. by intros [_ ?].
  - intros ar speedAudits audit Hin Hnone annotated.
    pose proof (LegacyFacts.annotate_unmeasured ar audit Hnone) as Hsame.
    assert (audit ∈ annotated) as Hin'.
    { rewrite <- Hsame. by apply list_elem_of_fmap_2. }
    split; [done|]. split; [done|]. intros Hfresh.
    rewrite LegacyFacts.elem_of_successful_entries,
      LegacyFacts.elem_of_failed_entries, Hfresh.
    split; [done|]. by intros [_ ?].
Qed.

Lemma unmeasured_witness :
  let data := Scenario.unmeasured in
  let speedResults :=
    Index.annotateAll (Index.speedBudgets data) (Index.audits data) in
  get speedResults "interactive" = Some (Scenario.reported "interactive" None None)
  ∧ "interactive" ∈ keys speedResults
  ∧ (Index.overBudgetBy (Scenario.reported "interactive" None None) = None →
     "interactive" ∈ Index.successfulSpeedAudits speedResults
     ∧ "interactive" ∉ Index.failedSpeedAudits speedResults).
Proof.
  refine (proj1 (proj2 unmeasured_never_fails)
            (Index.speedBudgets Scenario.unmeasured)
            (Index.audits Scenario.unmeasured) "interactive"
            (Scenario.reported "interactive" None None) _ _); reflexivity.
Defined.

(** C5, as the specification words it, fails: with a budget of 1000 ms
    and 1500 ms measured, [src/lib/index.js] prints "Expected less than",
    and the older copy prints the measurement as it is, with no unit. *)
Lemma scenario_line_differs :
  (Log "first-contentful-paint: Expected 1000 ms but got 1500 ms"
     ∉ (Index.main monochrome (Scenario.run (Scenario.paint 1000 1500))).1)
  ∧ Log "first-contentful-paint: Expected less than 1000 ms but got 1500 ms"
      ∈ (Index.main monochrome (Scenario.run (Scenario.paint 1000 1500))).1
  ∧ Legacy.speedText monochrome
      (Legacy.annotate [("first-contentful-paint", Scenario.measuredAt 1500)]
                       (Scenario.budget "first-contentful-paint" 1000))
    = "first-contentful-paint: Expected 1000 ms but got 1500".
Proof.
  split; [|split].
  - apply (bool_decide_unpack _). by vm_compute.
  - apply (bool_decide_unpack _). by vm_compute.
  - by vm_compute.
Qed.

(** C5, amended.  In a run of [src/lib/index.js] that obtains a report,
    an audit measured above its threshold gets the line
    "<id>: Expected less than <threshold> ms but got <actual> ms", where
    <actual> is the measurement rounded to the nearest integer, and the
    run rejects with "Budgets broken".  The older copy composes
    "<id>: Expected <threshold> ms but got <measured>" from the entry it
    annotated, the measurement unrounded. *)
Theorem failed_timing_line :
  (∀ (rt : Runtime) (w : Index.World) (url : string) (isCustom : bool)
     (data : Index.Report) (items : list Item) (key : string)
     (audit : Index.Audit) (measured threshold : Q),
     Index.obtains w url isCustom data →
     Index.itemsOf (Index.annotateAll (Index.speedBudgets data) (Index.audits data))
       = Some items →
     get (Index.audits data) key = Some audit →
     Index.numericValue audit = Some (Num measured) →
     Index.speedBudgets data !! Index.id audit = Some (Num threshold) →
     (0 < measured - threshold)%Q →
     ∃ actual : Z,
       nearest_half_up measured actual
       ∧ Log (green rt (Index.id audit) +:+ ": Expected less than "
              +:+ green rt (NumberToString rt (Num threshold))
              +:+ " ms but got "
              +:+ red rt (NumberToString rt (Num (inject_Z actual))) +:+ " ms")
           ∈ (Index.main rt w).1
       ∧ (Index.main rt w).2 = Rejected "Budgets broken")
  ∧ (∀ (rt : Runtime) (auditResults : object Legacy.Audit)
       (audit : Legacy.Budget) (result : Legacy.Audit) (measured threshold : Q),
       Legacy.timeBudget audit = Some (Num threshold) →
       get auditResults (Legacy.id audit) = Some result →
       Legacy.numericValue result = Some (Num measured) →
       Legacy.speedText rt (Legacy.annotate auditResults audit)
       = green rt (Legacy.id audit) +:+ ": Expected "
         +:+ green rt (NumberToString rt (Num threshold))
         +:+ " ms but got " +:+ red rt (NumberToString rt (Num measured))).
Proof.
  split.
  - intros rt w url isCustom data items key audit measured threshold
      Hrun Hitems Hget Hnum Hsb Hpos.
    set (speedResults :=
           Index.annotateAll (Index.speedBudgets data) (Index.audits data)) in *.
    assert (key ∈ Index.failedSpeedAudits speedResults) as Hfailed.
    { apply IndexFacts.elem_of_failedSpeedAudits. unfold speedResults.
      destruct (IndexFacts.overBudgetBy_at_measured
                  (Index.speedBudgets data) (Index.audits data) key audit
                  measured threshold Hget Hnum Hsb) as [Hkey ->].
      split; [done|]. by apply gt0_Num. }
    rewrite (IndexRun.main_invalid rt w url isCustom data items Hrun Hitems)
      by exact (IndexRun.failed_audit_invalid _ _ key Hfailed).
    destruct (Math_round_nearest measured) as (actual & Hround & Hnear).
    exists actual. split; [done|]. split; [|done]. cbn [fst].
    apply elem_of_app. right.
    replace (green rt (Index.id audit) +:+ _)
      with (Index.speedText rt (Index.annotate (Index.speedBudgets data) audit)).
    + apply (IndexRun.speed_line_printed rt speedResults items key); [done|].
      unfold speedResults. by rewrite IndexFacts.get_annotateAll, Hget.
    + unfold Index.speedText, Index.annotate. rewrite Hnum.
      cbn [Index.id Index.timeBudget Index.numericValue ToNumber ToString].
      by rewrite Hsb, Hround.
  - intros rt ar audit result measured threshold Hbudget Hget Hnum.
    rewrite (LegacyFacts.annotate_measured _ _ _ _ Hget Hnum).
    unfold Legacy.speedText. cbn. by rewrite Hbudget.
Qed.

Lemma failed_timing_witness :
  ∃ actual : Z,
    nearest_half_up (inject_Z 1500) actual
    ∧ Log (green monochrome "first-contentful-paint" +:+ ": Expected less than "
           +:+ green monochrome (NumberToString monochrome (Num (inject_Z 1000)))
           +:+ " ms but got "
           +:+ red monochrome (NumberToString monochrome (Num (inject_Z actual)))
           +:+ " ms")
        ∈ (Index.main monochrome (Scenario.run (Scenario.paint 1000 1500))).1
    ∧ (Index.main monochrome (Scenario.run (Scenario.paint 1000 1500))).2
      = Rejected "Budgets broken".
Proof.
  refine (proj1 failed_timing_line monochrome
            (Scenario.run (Scenario.paint 1000 1500)) "https://example.com" true
            (Scenario.paint 1000 1500) [] "first-contentful-paint"
            (Scenario.fcp 1500).2 (inject_Z 1500) (inject_Z 1000) _ _ _ _ _ _);
    try reflexivity.
  repeat split; done.
Defined.

(** C6.  In a run of [src/lib/index.js] that obtains a report and fails
    its budgets, a resource item that has a size-over-budget amount gets
    the line "<label>: Expected <e>kb download size but got <a>kb",
    where <e> is (size - sizeOverBudget) / 1024 and <a> is size / 1024,
    each rounded to the nearest integer with a tie going up and printed
    in decimal digits.  Sizes and amounts are whole numbers of bytes
    below 2^53.  The rounding is for the line only: any amount other than
    0, however small, keeps the item out of the successful ones. *)
Theorem failed_size_line (rt : Runtime) (w : Index.World) (url : string)
    (isCustom : bool) (data : Index.Report) (items : list Item) (item : Item)
    (observed over : Z) :
  Index.obtains w url isCustom data →
  let speedResults :=
    Index.annotateAll (Index.speedBudgets data) (Index.audits data) in
  Index.itemsOf speedResults = Some items →
  Index.isValid speedResults items = false →
  item ∈ items →
  size item = Num (inject_Z observed) →
  sizeOverBudget item = Some (Num (inject_Z over)) →
  (0 <= observed < 2 ^ 53)%Z →
  (0 <= over < 2 ^ 53)%Z →
  (∃ expected actual : Z,
     nearest_half_up ((inject_Z observed - inject_Z over) / 1024) expected
     ∧ nearest_half_up (inject_Z observed / 1024) actual
     ∧ Log (green rt (label item) +:+ ": Expected "
            +:+ green rt (pretty expected +:+ "kb")
            +:+ " download size but got "
            +:+ red rt (pretty actual +:+ "kb"))
         ∈ (Index.main rt w).1)
  ∧ (Index.main rt w).2 = Rejected "Budgets broken"
  ∧ (over ≠ 0%Z → item ∉ Index.successfulBundleAudits items).
Proof.
  intros Hrun speedResults Hitems Hinvalid Hin Hsize Hover Hobserved Hamount.
  rewrite (IndexRun.main_invalid rt w url isCustom data items Hrun Hitems Hinvalid).
  fold speedResults. cbn [fst snd]. split; [|split; [done|]].
  - destruct (Math_round_nearest ((inject_Z observed - inject_Z over) / 1024))
      as (expected & Hexpected & Hnear).
    destruct (Math_round_nearest (inject_Z observed / 1024))
      as (actual & Hactual & Hnear').
    exists expected, actual. split; [done|]. split; [done|].
    apply elem_of_app. right.
    replace (green rt (label item) +:+ _) with (sizeText rt item).
    + by eapply IndexRun.size_line_printed.
    + unfold sizeText. rewrite Hsize, Hover.
      change (div (sub (Num (inject_Z observed))
                       (ToNumber (Some (Num (inject_Z over))))) (Num 1024))
        with (Num ((inject_Z observed - inject_Z over) / 1024)).
      change (div (Num (inject_Z observed)) (Num 1024))
        with (Num (inject_Z observed / 1024)).
      rewrite Hexpected, Hactual.
      apply nearest_half_up_kb_diff in Hnear. apply nearest_half_up_kb in Hnear'.
      by rewrite !NumberToString_integer by lia.
  - intros Hnonzero. unfold Index.successfulBundleAudits.
    apply not_elem_of_filter_bool; [done|]. unfold withinBudget.
    rewrite Hover. cbn [truthy truthy_number inject_Z Qnum].
    by destruct (Z.eqb_spec over 0).
Qed.

Lemma failed_size_witness :
  Log "scripts: Expected 250kb download size but got 300kb"
    ∈ (Index.main monochrome (Scenario.run (Scenario.table [Scenario.scripts]))).1
  ∧ (Index.main monochrome (Scenario.run (Scenario.table [Scenario.scripts]))).2
    = Rejected "Budgets broken"
  ∧ (Scenario.scripts ∉ Index.successfulBundleAudits [Scenario.scripts]).
Proof.
  destruct (failed_size_line monochrome
              (Scenario.run (Scenario.table [Scenario.scripts]))
              "https://example.com" true (Scenario.table [Scenario.scripts])
              [Scenario.scripts] Scenario.scripts (300 * 1024) (50 * 1024))
    as ((expected & actual & Hexpected & Hactual & Hline) & Hrejected & Hover).
  - repeat split; done.
  - reflexivity.
  - reflexivity.
  - apply list_elem_of_here.
  - reflexivity.
  - reflexivity.
  - lia.
  - lia.
  - assert (expected = 250%Z) as ->.
    { apply (nearest_half_up_unique _ _ _ Hexpected). by split. }
    assert (actual = 300%Z) as ->.
    { apply (nearest_half_up_unique _ _ _ Hactual). by split. }
    split; [exact Hline|]. split; [exact Hrejected|]. by apply Hover.
Defined.

(** The two resource scenarios of the specification, as the run prints
    them. *)
Example resource_scenarios :
  (Index.main monochrome
     (Scenario.run (Scenario.table [Scenario.scripts; Scenario.images]))).1
  = Index.preamble monochrome "https://example.com" true
    ++ [Log "----- Failed resource count budget audits ------";
        Log "images: Expected 15 total number of requests but got 20";
        Log "----- Failed resource size budget audits ------";
        Log "scripts: Expected 250kb download size but got 300kb"].
Proof. by vm_compute. Qed.

(** C7.  In a run of [src/lib/index.js] that obtains a report, a
    resource item whose count-over-budget descriptor is "<n> requests"
    gets the line "<label>: Expected <e> total number of requests but
    got <count>", where <e> is the observed request count minus [n],
    both printed in decimal digits, and the run rejects with "Budgets
    broken".  The count and [n] are whole numbers below 2^53. *)
Theorem failed_count_line (rt : Runtime) (w : Index.World) (url : string)
    (isCustom : bool) (data : Index.Report) (items : list Item) (item : Item)
    (observed : Z) (numeral : string) (n : Z) :
  Index.obtains w url isCustom data →
  Index.itemsOf (Index.annotateAll (Index.speedBudgets data) (Index.audits data))
    = Some items →
  item ∈ items →
  requestCount item = Num (inject_Z observed) →
  countOverBudget item = Some (numeral +:+ " requests") →
  numeral ≠ "" →
  digits 0 numeral = Some n →
  (0 <= observed < 2 ^ 53)%Z →
  (n < 2 ^ 53)%Z →
  Log (green rt (label item) +:+ ": Expected "
       +:+ green rt (pretty (observed - n)%Z)
       +:+ " total number of requests but got "
       +:+ red rt (pretty observed))
    ∈ (Index.main rt w).1
  ∧ (Index.main rt w).2 = Rejected "Budgets broken".
Proof.
  intros Hrun Hitems Hin Hcount Hdescriptor Hne Hdigits Hobserved Hbound.
  assert (withinBudget item = false) as Hover.
  { unfold withinBudget. rewrite Hdescriptor. cbn [truthy_string].
    destruct numeral; [done|]. cbn. apply andb_false_r. }
  rewrite (IndexRun.main_invalid rt w url isCustom data items Hrun Hitems)
    by by eapply IndexRun.over_item_invalid.
  cbn [fst snd]. split; [|done]. apply elem_of_app. right.
  replace (green rt (label item) +:+ _)
    with (requestCountText rt item (numeral +:+ " requests")).
  - by apply IndexRun.count_line_printed.
  - pose proof (digits_nonneg 0 numeral n Hdigits ltac:(done)) as Hpos.
    unfold requestCountText.
    change (numeral +:+ " requests") with (numeral +:+ " requests" +:+ "").
    rewrite (split_head_numeral 0 numeral n "" Hdigits).
    rewrite (StringToNumber_numeral rt numeral n Hne Hdigits Hbound).
    rewrite Hcount, sub_integers.
    by rewrite !NumberToString_integer by lia.
Qed.

Lemma failed_count_witness :
  Log "images: Expected 15 total number of requests but got 20"
    ∈ (Index.main monochrome (Scenario.run (Scenario.table [Scenario.images]))).1
  ∧ (Index.main monochrome (Scenario.run (Scenario.table [Scenario.images]))).2
    = Rejected "Budgets broken".
Proof.
  refine (failed_count_line monochrome
            (Scenario.run (Scenario.table [Scenario.images]))
            "https://example.com" true (Scenario.table [Scenario.images])
            [Scenario.images] Scenario.images 20 "5" 5 _ _ _ _ _ _ _ _ _);
    try reflexivity.
  - repeat split; done.
  - apply list_elem_of_here.
  - done.
  - lia.
Defined.

(** C8, as the specification words it, fails: the evaluation writes into
    the structure it reads.  [src/lib/index.js] changes the audits of
    the report, the older copy the entries of [audit.json]. *)
Lemma evaluation_writes_its_input :
  let data := Scenario.paint 1000 1500 in
  Index.annotateAll (Index.speedBudgets data) (Index.audits data)
    ≠ Index.audits data
  ∧ Legacy.annotate [("first-contentful-paint", Scenario.measuredAt 1500)]
                    (Scenario.budget "first-contentful-paint" 1000)
    ≠ Scenario.budget "first-contentful-paint" 1000.
Proof.
  split.
  - intros Hsame.
    apply (f_equal (λ o, Index.overBudgetBy_at o "first-contentful-paint")) in Hsame.
    by vm_compute in Hsame.
  - intros Hsame. apply (f_equal Legacy.overBudgetBy) in Hsame.
    by vm_compute in Hsame.
Qed.

(** C8, amended.  The evaluation changes nothing but the two annotation
    fields of the records it classifies.  [src/lib/index.js] keeps the
    keys of the report and, in every audit, its id, measurement and
    details (the resource items with them); an audit without a
    measurement is left as it was, one with a measurement gets the
    looked-up threshold as [timeBudget] and the overage, when positive,
    as [overBudgetBy].  The older copy leaves the report alone and keeps
    id and threshold of every entry of [audit.json]; an entry without a
    measurement is left as it was, one with a measurement gets it as
    [actualSpeed] and the overage, when positive, as [overBudgetBy]. *)
Theorem evaluation_writes_annotations_only :
  (∀ (speedBudgets : gmap string number) (audits : object Index.Audit),
     let speedResults := Index.annotateAll speedBudgets audits in
     keys speedResults = keys audits
     ∧ ∀ (key : string) (audit : Index.Audit),
         get audits key = Some audit →
         ∃ audit' : Index.Audit,
           get speedResults key = Some audit'
           ∧ Index.id audit' = Index.id audit
           ∧ Index.numericValue audit' = Index.numericValue audit
           ∧ Index.details audit' = Index.details audit
           ∧ (Index.numericValue audit = None → audit' = audit)
           ∧ (∀ measured, Index.numericValue audit = Some measured →
                let overBudget :=
                  sub measured (ToNumber (speedBudgets !! Index.id audit)) in
                Index.timeBudget audit' = speedBudgets !! Index.id audit
                ∧ Index.overBudgetBy audit'
                  = if gt0 overBudget then Some overBudget else None))
  ∧ (∀ (auditResults : object Legacy.Audit) (speedAudits : list Legacy.Budget),
       let annotated := Legacy.annotate auditResults <$> speedAudits in
       length annotated = length speedAudits
       ∧ ∀ (i : nat) (audit : Legacy.Budget),
           speedAudits !! i = Some audit →
           ∃ audit' : Legacy.Budget,
             annotated !! i = Some audit'
             ∧ Legacy.id audit' = Legacy.id audit
             ∧ Legacy.timeBudget audit' = Legacy.timeBudget audit
             ∧ ((∀ result, get auditResults (Legacy.id audit) = Some result →
                           Legacy.numericValue result = None) → audit' = audit)
             ∧ (∀ result measured,
                  get auditResults (Legacy.id audit) = Some result →
                  Legacy.numericValue result = Some measured →
                  let overBudget :=
                    sub measured (ToNumber (Legacy.timeBudget audit)) in
                  Legacy.actualSpeed audit' = Some measured
                  ∧ Legacy.overBudgetBy audit'
                    = if gt0 overBudget then Some overBudget else None)).
Proof.
  split.
  - intros sb audits speedResults. split; [apply IndexFacts.keys_annotateAll|].
    intros key audit Hget. exists (Index.annotate sb audit).
    split. { unfold speedResults. by rewrite IndexFacts.get_annotateAll, Hget. }
    unfold Index.annotate.
    destruct (Index.numericValue audit) as [measured|] eqn:Hnum; cbn.
    + do 4 (split; [done|]). intros m [= <-]. by split.
    + by repeat split.
  - intros ar speedAudits annotated. split; [apply length_fmap|].
    intros i audit Hi. exists (Legacy.annotate ar audit).
    split. { unfold annotated. by rewrite list_lookup_fmap, Hi. }
    split; [|split; [|split]].
    + unfold Legacy.annotate. by destruct (get ar _) as [[[m|] d]|].
    + unfold Legacy.annotate. by destruct (get ar _) as [[[m|] d]|].
    + apply LegacyFacts.annotate_unmeasured.
    + intros result measured Hget Hnum overBudget.
      by rewrite (LegacyFacts.annotate_measured _ _ _ _ Hget Hnum).
Qed.

Lemma evaluation_writes_witness :
  ∃ audit' : Index.Audit,
    get (Index.annotateAll (Index.speedBudgets (Scenario.paint 1000 1500))
                           (Index.audits (Scenario.paint 1000 1500)))
        "first-contentful-paint" = Some audit'
    ∧ Index.id audit' = "first-contentful-paint"
    ∧ Index.numericValue audit' = Some (Num (inject_Z 1500))
    ∧ Index.details audit' = None.
Proof.
  destruct (proj2 (proj1 evaluation_writes_annotations_only
                     (Index.speedBudgets (Scenario.paint 1000 1500))
                     (Index.audits (Scenario.paint 1000 1500)))
              "first-contentful-paint" (Scenario.fcp 1500).2 eq_refl)
    as (audit' & Hget & Hid & Hnum & Hdetails & _).
  exists audit'. repeat split; done.
Defined.

(** What [launchChromeAndRunLighthouse] does once the browser runs: the
    browser is killed when the engine resolves, and left running when the
    configuration cannot be read or the engine rejects. *)
Lemma kill_only_on_success (w : Index.World) (url : string) :
  Index.launch w = inr tt →
  ChromeLaunched ∈ (Index.launchChromeAndRunLighthouse w url).1
  ∧ (ChromeKilled ∈ (Index.launchChromeAndRunLighthouse w url).1
     ↔ ∃ isCustom data,
         Index.getLightHouseConfig w = ret isCustom
         ∧ Index.lighthouse w = inr data).
Proof.
  intros Hlaunch. unfold Index.launchChromeAndRunLighthouse. rewrite Hlaunch.
  destruct (Index.getLightHouseConfig w) as [out [e|isCustom]] eqn:Hconfig.
  - assert (out = []) as ->.
    { unfold Index.getLightHouseConfig, lift in Hconfig.
      destruct (Index.override_exists w); by injection Hconfig. }
    cbn. split; [apply list_elem_of_here|]. split.
    + by intros ?%list_elem_of_singleton.
    + by intros (? & ? & ? & _).
  - assert (out = []) as ->.
    { unfold Index.getLightHouseConfig, lift in Hconfig.
      destruct (Index.override_exists w); by injection Hconfig. }
    destruct (Index.lighthouse w) as [e|data] eqn:Hengine;
      destruct (Index.kill w) as [e'|[]], isCustom; cbn;
      (split; [apply list_elem_of_here|]); split;
      try (by intros (? & ? & _ & ?));
      try (by intros _; eexists _, _);
      try (by intros _; repeat constructor);
      intros Hin; repeat (apply elem_of_cons in Hin as [?|Hin]; [done|]);
      by apply elem_of_nil in Hin.
Qed.

Lemma kill_only_on_success_witness :
  ChromeLaunched
    ∈ (Index.launchChromeAndRunLighthouse Scenario.engineFails "https://example.com").1
  ∧ (ChromeKilled
       ∈ (Index.launchChromeAndRunLighthouse Scenario.engineFails
            "https://example.com").1
     ↔ ∃ isCustom data,
         Index.getLightHouseConfig Scenario.engineFails = ret isCustom
         ∧ Index.lighthouse Scenario.engineFails = inr data).
Proof. by apply kill_only_on_success. Defined.

(** C9 at the failing run: the browser has started, the engine rejects,
    and [main] of either copy returns without [chrome.kill()]. *)
Theorem browser_left_running_when_engine_fails :
  Index.main monochrome Scenario.engineFails
  = ([Log "Requesting lighthouse data for https://example.com";
      ChromeLaunched;
      LighthouseStarted "https://example.com";
      LogError (Failure "PROTOCOL_TIMEOUT")],
     Rejected "Failed to get lighthouse data")
  ∧ Legacy.main monochrome
      (Scenario.legacyRun [] (inl (Failure "PROTOCOL_TIMEOUT")))
    = ([Log "Requesting lighthouse data for https://example.com";
        ChromeLaunched;
        LighthouseStarted "https://example.com";
        LogError (Failure "PROTOCOL_TIMEOUT")],
       Rejected "Failed to get lighthouse data").
Proof. by vm_compute. Qed.

(** C10 at the failing input: a report whose settings hold no
    [speedBudgets], so that no timing threshold is configured, and one
    audit with a measurement.  [speedBudgets[audit.id]] (line 79) throws
    on [undefined]: the loop ends with a [TypeError], nothing is
    classified, and the [catch] of [main] rejects.  With an empty
    [speedBudgets] object the same audits pass. *)
Theorem unconfigured_budgets_fault :
  Index.lhr_speedBudgets Scenario.unconfigured = None
  ∧ get (Index.lhr_audits Scenario.unconfigured) "speed-index"
    = Some (Scenario.reported "speed-index" (Some (Num 4321)) None)
  ∧ Index.annotateRead Scenario.unconfigured
    = inl (TypeError "Cannot read property 'speed-index' of undefined")
  ∧ Index.evaluate monochrome Scenario.unconfigured
    = ([LogError (TypeError "Cannot read property 'speed-index' of undefined")],
       Rejected "Failed to get lighthouse data")
  ∧ Index.evaluate monochrome (Index.asRead Scenario.unbudgeted)
    = ([Log "All budgets passed. âœ”"], Resolved).
Proof. repeat split; by vm_compute. Qed.

(** With an empty [speedBudgets] object the run with that audit and
    nothing over budget resolves. *)
Example unbudgeted_run_resolves :
  Index.main monochrome (Scenario.run Scenario.unbudgeted)
  = (Index.preamble monochrome "https://example.com" true
     ++ [Log "All budgets passed. âœ”"], Resolved).
Proof. by vm_compute. Qed.

End Claims.

(** ** What else the runs do *)
Module Runs.
Import Js Lighthouse JsFacts LighthouseFacts.

(** Without a URL nothing is launched: [main] prints the request for one
    and rejects. *)
Theorem missing_url_rejects (rt : Runtime) (w : Index.World) :
  Index.argv2 w = None ∨ Index.argv2 w = Some "" →
  Index.main rt w
  = ([Log (red rt "Please provide a url")], Rejected "Please provide a valid url").
Proof.
  intros [Hargv|Hargv]; unfold Index.main, Index.attempt; by rewrite Hargv.
Qed.

Lemma missing_url_witness :
  Index.main monochrome
    {| Index.argv2 := None; Index.configOverride_bound := true;
       Index.override_exists := false;
       Index.override_isCustom := inr true; Index.example_isCustom := inr true;
       Index.launch := inr tt;
       Index.lighthouse := inr (Scenario.table []);
       Index.kill := inr tt |}
  = ([Log (red monochrome "Please provide a url")],
     Rejected "Please provide a valid url").
Proof. apply missing_url_rejects. by left. Defined.

(** [src/lib/index.js] reads the identifier [configOverride] before it
    launches the browser.  The file declares none: where no global of
    that name exists either, every run with a URL ends in the [catch]. *)
Theorem unbound_configOverride_rejects (rt : Runtime) (w : Index.World)
    (url : string) :
  Index.argv2 w = Some url → url ≠ "" →
  Index.configOverride_bound w = false →
  Index.main rt w
  = ([Log ("Requesting lighthouse data for " +:+ green rt url);
      LogError (ReferenceError "configOverride")],
     Rejected "Failed to get lighthouse data").
Proof.
  intros Hargv Hurl Hunbound. unfold Index.main, Index.attempt.
  rewrite Hargv, Hunbound. by destruct url.
Qed.

Lemma unbound_configOverride_witness :
  Index.main monochrome
    {| Index.argv2 := Some "https://example.com";
       Index.configOverride_bound := false;
       Index.override_exists := false;
       Index.override_isCustom := inr true; Index.example_isCustom := inr true;
       Index.launch := inr tt;
       Index.lighthouse := inr (Scenario.table []);
       Index.kill := inr tt |}
  = ([Log ("Requesting lighthouse data for "
           +:+ green monochrome "https://example.com");
      LogError (ReferenceError "configOverride")],
     Rejected "Failed to get lighthouse data").
Proof. by apply unbound_configOverride_rejects. Defined.

(** The blocks of the diagnostics come in a fixed order: timing, request
    count, size; a block without a failure prints nothing, not even its
    heading; and the branch returns, no line of it throws. *)
Theorem diagnostics_in_order (rt : Runtime) (o : object Index.Audit)
    (items : list Item) :
  Index.diagnostics rt o items
  = (printed rt "----- Failed page speed budget audits ------"
       ((λ key, from_option (Index.speedText rt) "" (get o key))
          <$> Index.failedSpeedAudits o)
     ++ printed rt "----- Failed resource count budget audits ------"
          (requestCountShown rt <$> Index.failedRequestCountAudits items)
     ++ printed rt "----- Failed resource size budget audits ------"
          (sizeText rt <$> Index.failedBundleAudits items),
     inr tt)
  ∧ ∀ heading, printed rt heading [] = [].
Proof. by rewrite IndexRun.diagnostics_printed. Qed.

Lemma legacy_main_obtains rt (w : Legacy.World) url isCustom speedAudits data :
  Legacy.obtains w url isCustom speedAudits data →
  Legacy.main rt w =
    match Legacy.checkBudgets rt w speedAudits data with
    | (out, inr outcome) => (Legacy.preamble rt url isCustom ++ out, outcome)
    | (out, inl e) =>
        (Legacy.preamble rt url isCustom ++ out ++ [LogError e],
         Rejected "Failed to get lighthouse data")
    end.
Proof.
  intros (Hargv & Hurl & Hconfig & Haudit & Hlaunch & Hengine & Hkill).
  unfold Legacy.main, Legacy.attempt, Legacy.launchChromeAndRunLighthouse,
    Legacy.getLightHouseConfig, Legacy.getAuditBudgets, Legacy.preamble.
  rewrite Hargv, Hconfig, Haudit, Hlaunch, Hengine, Hkill.
  destruct url as [|c url]; [done|].
  destruct isCustom; cbn [bind ret lift emit log];
    destruct (Legacy.checkBudgets rt w speedAudits data) as [out [e|outcome]];
    reflexivity.
Qed.

(** In the older copy the failure branch reads [failedBudgets], which the
    file never declares: where no global of that name exists, a run that
    breaks a budget prints no diagnostics and rejects with the message of
    a failed engine; a run within its budgets resolves. *)
Theorem legacy_violation_prints_no_diagnostics (rt : Runtime) (w : Legacy.World)
    (url : string) (isCustom : bool) (speedAudits : list Legacy.Budget)
    (data : object Legacy.Audit) (items : list Item) :
  Legacy.obtains w url isCustom speedAudits data →
  Legacy.itemsOf data = Some items →
  Legacy.failedBudgets w = None →
  Legacy.main rt w =
    if Legacy.isValid (Legacy.annotate data <$> speedAudits) items
    then (Legacy.preamble rt url isCustom ++ [Log "All budgets passed. âœ”"],
          Resolved)
    else (Legacy.preamble rt url isCustom
          ++ [LogError (ReferenceError "failedBudgets")],
          Rejected "Failed to get lighthouse data").
Proof.
  intros Hrun Hitems Hunbound.
  rewrite (legacy_main_obtains rt w url isCustom speedAudits data Hrun).
  unfold Legacy.checkBudgets, Legacy.itemsOf in *.
  destruct (get data "performance-budget") as [audit|]; [|done].
  injection Hitems as <-.
  change (Legacy.details <$> Some audit) with (Some (Legacy.details audit)).
  assert (destructure_items (Some (Legacy.details audit))
          = ret (default [] (Legacy.details audit ≫= Lighthouse.items))) as ->.
  { by destruct (Legacy.details audit). }
  cbn [bind ret app]. destruct (Legacy.isValid _ _); [done|].
  unfold Legacy.diagnostics. by rewrite Hunbound.
Qed.

Lemma legacy_violation_witness :
  Legacy.main monochrome
    (Scenario.legacyRun [Scenario.budget "first-contentful-paint" 1000]
       (inr [("first-contentful-paint", Scenario.measuredAt 1500);
             Scenario.legacyTable []]))
  = (Legacy.preamble monochrome "https://example.com" true
     ++ [LogError (ReferenceError "failedBudgets")],
     Rejected "Failed to get lighthouse data").
Proof.
  refine (legacy_violation_prints_no_diagnostics monochrome
            (Scenario.legacyRun [Scenario.budget "first-contentful-paint" 1000]
               (inr [("first-contentful-paint", Scenario.measuredAt 1500);
                     Scenario.legacyTable []]))
            "https://example.com" true
            [Scenario.budget "first-contentful-paint" 1000]
            [("first-contentful-paint", Scenario.measuredAt 1500);
             Scenario.legacyTable []] [] _ _ _); try reflexivity.
  repeat split; done.
Defined.

End Runs.

(** ** How [main] can end *)
Module Outcomes.
Import Js Lighthouse JsFacts LighthouseFacts.

Lemma bind_inr {A B} (m : Eff A) (k : A → Eff B) out (b : B) :
  bind m k = (out, inr b) →
  ∃ out1 a out2, m = (out1, inr a) ∧ k a = (out2, inr b) ∧ out = out1 ++ out2.
Proof.
  destruct m as [out1 [e|a]]; cbn [bind]; [done|].
  destruct (k a) as [out2 r] eqn:Hk. intros [= <- ->]. by eexists _, _, _.
Qed.

(** What the evaluation of a report can return. *)
Lemma index_checkBudgets_cases rt (data : Index.Report) :
  (∃ message, Index.checkBudgets rt data = ([], inl (TypeError message)))
  ∨ Index.checkBudgets rt data = ([Log "All budgets passed. âœ”"], inr Resolved)
  ∨ ∃ out, out ≠ []
           ∧ Index.checkBudgets rt data = (out, inr (Rejected "Budgets broken")).
Proof.
  set (speedResults :=
         Index.annotateAll (Index.speedBudgets data) (Index.audits data)).
  destruct (Index.itemsOf speedResults) as [items|] eqn:Hitems.
  - rewrite (IndexRun.checkBudgets_items rt data items Hitems).
    fold speedResults. destruct (Index.isValid speedResults items) eqn:Hvalid.
    + right. by left.
    + right. right. eexists. split; [|done].
      by apply IndexRun.diagnostics_nonempty.
  - left. unfold Index.itemsOf in Hitems. unfold Index.checkBudgets.
    fold speedResults.
    destruct (get speedResults "performance-budget"); [done|]. by eexists.
Qed.

(** Whatever the collaborators do, [main] of [src/lib/index.js] ends in
    one of four ways.  Without a URL it prints the request for one and
    rejects with "Please provide a valid url".  With a URL the first line
    names it, and the promise resolves with the success message as the last
    line, or rejects with "Budgets broken", or rejects with "Failed to get
    lighthouse data" with the caught exception logged last. *)
Theorem index_main_endings (rt : Runtime) (w : Index.World) :
  ((Index.argv2 w = None ∨ Index.argv2 w = Some "")
   ∧ Index.main rt w
     = ([Log (red rt "Please provide a url")],
        Rejected "Please provide a valid url"))
  ∨ ∃ url, Index.argv2 w = Some url ∧ url ≠ ""
      ∧ head (Index.main rt w).1
        = Some (Log ("Requesting lighthouse data for " +:+ green rt url))
      ∧ (((Index.main rt w).2 = Resolved
          ∧ last (Index.main rt w).1 = Some (Log "All budgets passed. âœ”"))
         ∨ (Index.main rt w).2 = Rejected "Budgets broken"
         ∨ ((Index.main rt w).2 = Rejected "Failed to get lighthouse data"
            ∧ ∃ e, last (Index.main rt w).1 = Some (LogError e))).
Proof.
  destruct (Index.argv2 w) as [url|] eqn:Hargv.
  2: { left. split; [by left|]. unfold Index.main, Index.attempt. by rewrite Hargv. }
  destruct (decide (url = "")) as [->|Hurl].
  { left. split; [by right|]. unfold Index.main, Index.attempt. by rewrite Hargv. }
  right. exists url. split; [done|]. split; [done|].
  unfold Index.main, Index.attempt. rewrite Hargv.
  destruct url as [|c url]; [done|].
  set (rest := bind (if Index.configOverride_bound w then ret tt
                     else throw (ReferenceError "configOverride")) _).
  destruct rest as [out [e|outcome]] eqn:Hrest; cbn [bind log emit fst snd].
  - split; [done|]. right. right. split; [done|]. exists e.
    apply last_snoc.
  - split; [done|].
    unfold rest in Hrest.
    apply bind_inr in Hrest as (out1 & [] & out2 & _ & Hrest & ->).
    apply bind_inr in Hrest as (out3 & data & out4 & _ & Hcheck & ->).
    destruct (index_checkBudgets_cases rt data) as [[m Hc]|[Hc|(o & _ & Hc)]];
      rewrite Hc in Hcheck; [done|..]; injection Hcheck as <- <-.
    + left. split; [done|]. by rewrite !(assoc_L (++)), last_snoc.
    + right. by left.
Qed.

Lemma legacy_checkBudgets_cases rt (w : Legacy.World)
    (speedAudits : list Legacy.Budget) (data : object Legacy.Audit) :
  (∃ out e, Legacy.checkBudgets rt w speedAudits data = (out, inl e))
  ∨ Legacy.checkBudgets rt w speedAudits data
    = ([Log "All budgets passed. âœ”"], inr Resolved)
  ∨ ∃ out, Legacy.checkBudgets rt w speedAudits data
           = (out, inr (Rejected "Budgets broken")).
Proof.
  unfold Legacy.checkBudgets.
  destruct (destructure_items _) as [out [e|items]] eqn:Hitems; cbn [bind].
  { left. by eexists _, _. }
  assert (out = []) as ->.
  { unfold destructure_items in Hitems.
    repeat case_match; by injection Hitems. }
  destruct (Legacy.isValid _ items).
  - right. by left.
  - destruct (Legacy.diagnostics rt w _) as [out [e|[]]]; cbn [bind ret].
    + left. by eexists _, _.
    + right. right. by eexists.
Qed.

(** The older copy ends in the same four ways. *)
Theorem legacy_main_endings (rt : Runtime) (w : Legacy.World) :
  ((Legacy.argv2 w = None ∨ Legacy.argv2 w = Some "")
   ∧ Legacy.main rt w
     = ([Log (red rt "Please provide a url")],
        Rejected "Please provide a valid url"))
  ∨ ∃ url, Legacy.argv2 w = Some url ∧ url ≠ ""
      ∧ head (Legacy.main rt w).1
        = Some (Log ("Requesting lighthouse data for " +:+ green rt url))
      ∧ (((Legacy.main rt w).2 = Resolved
          ∧ last (Legacy.main rt w).1 = Some (Log "All budgets passed. âœ”"))
         ∨ (Legacy.main rt w).2 = Rejected "Budgets broken"
         ∨ ((Legacy.main rt w).2 = Rejected "Failed to get lighthouse data"
            ∧ ∃ e, last (Legacy.main rt w).1 = Some (LogError e))).
Proof.
  destruct (Legacy.argv2 w) as [url|] eqn:Hargv.
  2: { left. split; [by left|]. unfold Legacy.main, Legacy.attempt. by rewrite Hargv. }
  destruct (decide (url = "")) as [->|Hurl].
  { left. split; [by right|]. unfold Legacy.main, Legacy.attempt. by rewrite Hargv. }
  right. exists url. split; [done|]. split; [done|].
  unfold Legacy.main, Legacy.attempt. rewrite Hargv.
  destruct url as [|c url]; [done|].
  set (rest := bind (Legacy.getLightHouseConfig w) _).
  destruct rest as [out [e|outcome]] eqn:Hrest; cbn [bind log emit fst snd].
  - split; [done|]. right. right. split; [done|]. exists e. apply last_snoc.
  - split; [done|]. unfold rest in Hrest.
    apply bind_inr in Hrest as (out1 & isCustom & out2 & _ & Hrest & ->).
    apply bind_inr in Hrest as (out3 & speedAudits & out4 & _ & Hrest & ->).
    apply bind_inr in Hrest as (out5 & data & out6 & _ & Hcheck & ->).
    destruct (legacy_checkBudgets_cases rt w speedAudits data)
      as [(o & e & Hc)|[Hc|(o & Hc)]];
      rewrite Hc in Hcheck; [done|..]; injection Hcheck as <- <-.
    + left. split; [done|]. by rewrite !(assoc_L (++)), last_snoc.
    + right. by left.
Qed.

End Outcomes.

(** ** The browser and the engine *)
Module Browser.
Import Js Lighthouse JsFacts LighthouseFacts.

Lemma getLightHouseConfig_silent (w : Index.World) out r :
  Index.getLightHouseConfig w = (out, r) → out = [].
Proof.
  unfold Index.getLightHouseConfig, lift.
  destruct (Index.override_exists w); by intros [= <- _].
Qed.

(** [launchChromeAndRunLighthouse] of [src/lib/index.js] goes through its
    steps in one order and stops at the first that fails: what it does is
    always a beginning of "browser launched, advisory (for an example
    configuration), engine started, browser killed".  So the engine is
    never started without a browser, nothing is killed before the engine
    was started, and nothing happens after the kill.  It returns a report
    only when all steps were done and the kill succeeded, and the report is
    the one the engine resolved with. *)
Theorem launch_steps_in_order (w : Index.World) (url : string) :
  let steps (isCustom : bool) :=
    [ChromeLaunched] ++ (if isCustom then [] else [Log advisory])
    ++ [LighthouseStarted url; ChromeKilled] in
  (∃ isCustom : bool,
     (Index.launchChromeAndRunLighthouse w url).1 `prefix_of` steps isCustom)
  ∧ ∀ data, (Index.launchChromeAndRunLighthouse w url).2 = inr data →
       Index.launch w = inr tt ∧ Index.lighthouse w = inr data
       ∧ Index.kill w = inr tt
       ∧ ∃ isCustom : bool,
           Index.getLightHouseConfig w = ret isCustom
           ∧ (Index.launchChromeAndRunLighthouse w url).1 = steps isCustom.
Proof.
  intros steps. unfold Index.launchChromeAndRunLighthouse, steps.
  destruct (Index.launch w) as [e|[]]; cbn [bind lift emit fst snd app].
  { split; [exists true; apply prefix_nil | done]. }
  destruct (Index.getLightHouseConfig w) as [out [e|isCustom]] eqn:Hconfig;
    pose proof (getLightHouseConfig_silent _ _ _ Hconfig) as ->;
    cbn [bind fst snd app].
  { split; [exists true; by apply prefix_cons, prefix_nil | done]. }
  split.
  - exists isCustom.
    destruct (Index.lighthouse w) as [e|data], (Index.kill w) as [e'|[]], isCustom;
      cbn; by repeat (apply prefix_cons || apply prefix_nil).
  - destruct (Index.lighthouse w) as [e|data], (Index.kill w) as [e'|[]], isCustom;
      cbn; try done; intros data' [= <-]; do 3 (split; [done|]);
      first [by exists true | by exists false].
Qed.

(** A report is lost when the browser cannot be killed: the engine has
    resolved, [chrome.kill()] rejects, and [main] ends in the [catch]
    without looking at a single budget. *)
Theorem failed_kill_discards_report (rt : Runtime) (w : Index.World)
    (url : string) (isCustom : bool) (data : Index.Report) (e : error) :
  Index.argv2 w = Some url → url ≠ "" →
  Index.configOverride_bound w = true →
  Index.launch w = inr tt →
  Index.getLightHouseConfig w = ret isCustom →
  Index.lighthouse w = inr data →
  Index.kill w = inl e →
  Index.main rt w
  = (Index.preamble rt url isCustom ++ [LogError e],
     Rejected "Failed to get lighthouse data").
Proof.
  intros Hargv Hurl Hbound Hlaunch Hconfig Hengine Hkill.
  unfold Index.main, Index.attempt, Index.launchChromeAndRunLighthouse,
    Index.preamble.
  rewrite Hargv, Hbound, Hlaunch, Hconfig, Hengine, Hkill.
  destruct url as [|c url]; [done|]. by destruct isCustom.
Qed.

Lemma failed_kill_witness :
  Index.main monochrome
    {| Index.argv2 := Some "https://example.com";
       Index.configOverride_bound := true;
       Index.override_exists := false;
       Index.override_isCustom := inr true; Index.example_isCustom := inr true;
       Index.launch := inr tt;
       Index.lighthouse := inr (Scenario.paint 1000 1500);
       Index.kill := inl (Failure "ESRCH") |}
  = (Index.preamble monochrome "https://example.com" true
     ++ [LogError (Failure "ESRCH")],
     Rejected "Failed to get lighthouse data").
Proof.
  by apply (failed_kill_discards_report monochrome _ "https://example.com" true
              (Scenario.paint 1000 1500)).
Defined.

(** An override file that exists is the only configuration read: when it
    cannot be read the run fails, whatever the bundled file holds.  By then
    the browser runs; the engine is not started and the browser is not
    killed. *)
Theorem broken_override_is_not_replaced (rt : Runtime) (w : Index.World)
    (url : string) (e : error) :
  Index.argv2 w = Some url → url ≠ "" →
  Index.configOverride_bound w = true →
  Index.launch w = inr tt →
  Index.override_exists w = true →
  Index.override_isCustom w = inl e →
  Index.main rt w
  = ([Log ("Requesting lighthouse data for " +:+ green rt url);
      ChromeLaunched; LogError e],
     Rejected "Failed to get lighthouse data").
Proof.
  intros Hargv Hurl Hbound Hlaunch Hexists Hbroken.
  unfold Index.main, Index.attempt, Index.launchChromeAndRunLighthouse,
    Index.getLightHouseConfig.
  rewrite Hargv, Hbound, Hlaunch, Hexists, Hbroken. by destruct url.
Qed.

Lemma broken_override_witness :
  Index.main monochrome
    {| Index.argv2 := Some "https://example.com";
       Index.configOverride_bound := true;
       Index.override_exists := true;
       Index.override_isCustom := inl (Failure "Unexpected token");
       Index.example_isCustom := inr true;
       Index.launch := inr tt;
       Index.lighthouse := inr (Scenario.paint 1000 900);
       Index.kill := inr tt |}
  = ([Log ("Requesting lighthouse data for "
           +:+ green monochrome "https://example.com");
      ChromeLaunched; LogError (Failure "Unexpected token")],
     Rejected "Failed to get lighthouse data").
Proof. by apply broken_override_is_not_replaced. Defined.

(** The older copy reads both configuration files before it launches the
    browser: when [lighthouse.json] or [audit.json] cannot be read, the run
    ends in the [catch] and no browser was started. *)
Theorem legacy_unreadable_config_launches_nothing (rt : Runtime)
    (w : Legacy.World) (url : string) (e : error) :
  Legacy.argv2 w = Some url → url ≠ "" →
  Legacy.example_isCustom w = inl e
  ∨ ((∃ isCustom, Legacy.example_isCustom w = inr isCustom)
     ∧ Legacy.audit_json w = inl e) →
  Legacy.main rt w
  = ([Log ("Requesting lighthouse data for " +:+ green rt url); LogError e],
     Rejected "Failed to get lighthouse data").
Proof.
  intros Hargv Hurl Hbroken.
  unfold Legacy.main, Legacy.attempt, Legacy.getLightHouseConfig,
    Legacy.getAuditBudgets.
  rewrite Hargv. destruct url as [|c url]; [done|].
  destruct Hbroken as [->|[[isCustom ->] ->]]; done.
Qed.

Lemma legacy_unreadable_config_witness :
  Legacy.main monochrome
    {| Legacy.argv2 := Some "https://example.com";
       Legacy.example_isCustom := inr true;
       Legacy.audit_json := inl (Failure "ENOENT");
       Legacy.launch := inr tt;
       Legacy.lighthouse := inr [Scenario.legacyTable []];
       Legacy.kill := inr tt;
       Legacy.failedBudgets := None;
       Legacy.failedAudits := None |}
  = ([Log ("Requesting lighthouse data for "
           +:+ green monochrome "https://example.com");
      LogError (Failure "ENOENT")],
     Rejected "Failed to get lighthouse data").
Proof.
  apply legacy_unreadable_config_launches_nothing; [done..|].
  right. split; [by eexists | done].
Defined.

End Browser.

(** ** Reports of every shape *)
Module Reports.
Import Js Lighthouse JsFacts LighthouseFacts.

(** A report without the ["performance-budget"] audit cannot be
    evaluated: the run prints no diagnostics, whatever the timing audits
    measure, and ends in the [catch] with the [TypeError] of the
    destructuring. *)
Theorem missing_budget_audit_fails_the_run (rt : Runtime) (w : Index.World)
    (url : string) (isCustom : bool) (data : Index.Report) :
  Index.obtains w url isCustom data →
  get (Index.audits data) "performance-budget" = None →
  ∃ message,
    Index.main rt w
    = (Index.preamble rt url isCustom ++ [LogError (TypeError message)],
       Rejected "Failed to get lighthouse data").
Proof.
  intros Hrun Hmissing.
  rewrite (IndexRun.main_obtains rt w url isCustom data Hrun).
  unfold Index.checkBudgets.
  rewrite IndexFacts.get_annotateAll, Hmissing. by eexists.
Qed.

Lemma missing_budget_audit_witness :
  ∃ message,
    Index.main monochrome
      (Scenario.run {| Index.audits := [Scenario.fcp 1500];
                       Index.speedBudgets :=
                         {[ "first-contentful-paint" := Num 1000 ]} |})
    = (Index.preamble monochrome "https://example.com" true
       ++ [LogError (TypeError message)],
       Rejected "Failed to get lighthouse data").
Proof.
  apply (missing_budget_audit_fails_the_run monochrome _ "https://example.com" true
           {| Index.audits := [Scenario.fcp 1500];
              Index.speedBudgets := {[ "first-contentful-paint" := Num 1000 ]} |});
    [|done]. repeat split; done.
Defined.

(** A ["performance-budget"] audit without [details], or with [details]
    that have no [items], stands for an empty table: the run resolves
    exactly when no timing audit is listed as failed. *)
Theorem absent_table_is_empty (rt : Runtime) (w : Index.World)
    (url : string) (isCustom : bool) (data : Index.Report) (audit : Index.Audit) :
  Index.obtains w url isCustom data →
  get (Index.audits data) "performance-budget" = Some audit →
  Index.details audit = None ∨ Index.details audit = Some {| items := None |} →
  let speedResults :=
    Index.annotateAll (Index.speedBudgets data) (Index.audits data) in
  Index.itemsOf speedResults = Some []
  ∧ ((Index.main rt w).2 = Resolved ↔ Index.failedSpeedAudits speedResults = []).
Proof.
  intros Hrun Hget Habsent speedResults.
  assert (Index.itemsOf speedResults = Some []) as Hitems.
  { unfold Index.itemsOf, speedResults.
    rewrite IndexFacts.get_annotateAll, Hget. cbn [fmap option_fmap option_map mbind option_bind].
    assert (Index.details (Index.annotate (Index.speedBudgets data) audit)
            = Index.details audit) as ->.
    { unfold Index.annotate. by destruct (Index.numericValue audit). }
    by destruct Habsent as [->| ->]. }
  split; [done|].
  rewrite (IndexRun.main_obtains rt w url isCustom data Hrun).
  rewrite (IndexRun.checkBudgets_items rt data [] Hitems). fold speedResults.
  destruct (Index.isValid speedResults []) eqn:Hvalid; cbn [snd].
  - split; [intros _|done].
    apply IndexFacts.isValid_all in Hvalid as [_ Hkeys].
    destruct (Index.failedSpeedAudits speedResults) as [|key rest] eqn:Hfailed;
      [done|].
    assert (key ∈ Index.failedSpeedAudits speedResults) as Hin.
    { rewrite Hfailed. apply list_elem_of_here. }
    apply IndexFacts.elem_of_failedSpeedAudits in Hin as [Hkey Hover].
    rewrite (Hkeys key Hkey) in Hover. done.
  - split; [done|]. intros Hnone.
    apply not_true_iff_false in Hvalid. destruct Hvalid.
    apply IndexFacts.isValid_all. split; [by intros item ?%elem_of_nil|].
    intros key Hkey.
    destruct (truthy (Index.overBudgetBy_at speedResults key)) eqn:Hover; [|done].
    assert (key ∈ Index.failedSpeedAudits speedResults) as Hin
      by by apply IndexFacts.elem_of_failedSpeedAudits.
    rewrite Hnone in Hin. by apply elem_of_nil in Hin.
Qed.

Lemma absent_table_witness :
  let data :=
    {| Index.audits := [Scenario.fcp 900;
                        ("performance-budget",
                         Scenario.reported "performance-budget" None None)];
       Index.speedBudgets := {[ "first-contentful-paint" := Num 1000 ]} |} in
  let speedResults :=
    Index.annotateAll (Index.speedBudgets data) (Index.audits data) in
  Index.itemsOf speedResults = Some []
  ∧ ((Index.main monochrome (Scenario.run data)).2 = Resolved
     ↔ Index.failedSpeedAudits speedResults = []).
Proof.
  refine (absent_table_is_empty monochrome _ "https://example.com" true _
            (Scenario.reported "performance-budget" None None) _ _ _);
    [repeat split; done | done | by left].
Defined.

Lemma get_fmap {V W} (f : V → W) (o : object V) key :
  get (prod_map id f <$> o) key = f <$> get o key.
Proof.
  induction o as [|[k v] o IH]; [done|]. cbn.
  by destruct (String.eqb k key).
Qed.

Lemma keys_fmap {V W} (f : V → W) (o : object V) :
  keys (prod_map id f <$> o) = keys o.
Proof.
  unfold keys. induction o as [|[k v] o IH]; [done|]. cbn. f_equal. exact IH.
Qed.

Lemma get_cons_ne {V} (o : object V) k v key :
  key ≠ k → get ((k, v) :: o) key = get o key.
Proof.
  intros Hne. cbn. destruct (String.eqb_spec k key) as [->|]; done.
Qed.

(** Two objects with the same keys in the same order and the same value
    at every key are the same. *)
Lemma object_ext {V} (o1 o2 : object V) :
  keys o1 = keys o2 → NoDup (keys o1) →
  (∀ key, key ∈ keys o1 → get o1 key = get o2 key) → o1 = o2.
Proof.
  revert o2. induction o1 as [|[k v] o1 IH]; intros [|[k' v'] o2]; try done.
  unfold keys. cbn [fmap list_fmap fst].
  intros [= <- Hkeys] [Hfresh Hnodup]%NoDup_cons Hget.
  assert (v = v') as <-.
  { specialize (Hget k (list_elem_of_here _ _)). cbn in Hget.
    rewrite String.eqb_refl in Hget. by injection Hget. }
  f_equal. apply IH; [done..|].
  intros key Hkey. assert (key ≠ k) as Hne by (intros ->; contradiction).
  specialize (Hget key (list_elem_of_further _ _ _ Hkey)).
  by rewrite !get_cons_ne in Hget.
Qed.

(** On an object, whose keys are distinct, the loop over
    [Object.keys(speedResults)] with its lookups and writes by key is one
    pass that annotates every audit where it stands; evaluating a report
    that was evaluated before changes nothing. *)
Theorem loop_annotates_in_place (speedBudgets : gmap string number)
    (audits : object Index.Audit) :
  NoDup (keys audits) →
  Index.annotateAll speedBudgets audits
  = prod_map id (Index.annotate speedBudgets) <$> audits
  ∧ Index.annotateAll speedBudgets (Index.annotateAll speedBudgets audits)
    = Index.annotateAll speedBudgets audits.
Proof.
  intros Hnodup.
  assert (∀ o : object Index.Audit, NoDup (keys o) →
            Index.annotateAll speedBudgets o
            = prod_map id (Index.annotate speedBudgets) <$> o) as Hmap.
  { intros o Ho. apply object_ext.
    - by rewrite IndexFacts.keys_annotateAll, keys_fmap.
    - by rewrite IndexFacts.keys_annotateAll.
    - intros key _. by rewrite IndexFacts.get_annotateAll, get_fmap. }
  split; [by apply Hmap|].
  apply object_ext.
  - by rewrite IndexFacts.keys_annotateAll.
  - by rewrite !IndexFacts.keys_annotateAll.
  - intros key _. rewrite !IndexFacts.get_annotateAll.
    destruct (get audits key); cbn; [|done].
    by rewrite IndexFacts.annotate_idemp.
Qed.

Lemma loop_annotates_witness :
  let data := Scenario.paint 1000 1500 in
  Index.annotateAll (Index.speedBudgets data) (Index.audits data)
  = prod_map id (Index.annotate (Index.speedBudgets data)) <$> Index.audits data
  ∧ Index.annotateAll (Index.speedBudgets data)
      (Index.annotateAll (Index.speedBudgets data) (Index.audits data))
    = Index.annotateAll (Index.speedBudgets data) (Index.audits data).
Proof.
  apply loop_annotates_in_place. apply (bool_decide_unpack _). by vm_compute.
Defined.

(** No false alarm: an audit that has a measurement is listed as failed
    only when a numeric threshold is configured for its id and the
    measurement lies strictly above it; the overage recorded for it is
    what the subtraction of line 79 gave. *)
Theorem failed_only_when_exceeded (speedBudgets : gmap string number)
    (audits : object Index.Audit) (key : string) (audit : Index.Audit)
    (measured : number) :
  get audits key = Some audit →
  Index.numericValue audit = Some measured →
  key ∈ Index.failedSpeedAudits (Index.annotateAll speedBudgets audits) →
  ∃ m t : Q,
    measured = Num m
    ∧ speedBudgets !! Index.id audit = Some (Num t)
    ∧ (t < m)%Q
    ∧ Index.overBudgetBy_at (Index.annotateAll speedBudgets audits) key
      = Some (sub measured (ToNumber (speedBudgets !! Index.id audit))).
Proof.
  intros Hget Hnum [_ Hover]%IndexFacts.elem_of_failedSpeedAudits.
  rewrite (IndexFacts.overBudgetBy_at_annotateAll _ _ _ _ Hget) in *.
  unfold Index.annotate in *. rewrite Hnum in *. cbn in *.
  destruct measured as [|m]; [done|].
  destruct (speedBudgets !! Index.id audit) as [[|t]|]; try done.
  destruct (gt0 (sub (Num m) (ToNumber (Some (Num t))))) eqn:Hpos; [|done].
  exists m, t. repeat split; try done.
  apply Qlt_minus_iff. by apply (gt0_Num (m - t)).
Qed.

Lemma failed_only_when_exceeded_witness :
  ∃ m t : Q,
    Num (inject_Z 1500) = Num m
    ∧ Index.speedBudgets (Scenario.paint 1000 1500)
        !! Index.id (Scenario.fcp 1500).2 = Some (Num t)
    ∧ (t < m)%Q
    ∧ Index.overBudgetBy_at
        (Index.annotateAll (Index.speedBudgets (Scenario.paint 1000 1500))
                           (Index.audits (Scenario.paint 1000 1500)))
        "first-contentful-paint"
      = Some (sub (Num (inject_Z 1500))
                  (ToNumber (Index.speedBudgets (Scenario.paint 1000 1500)
                               !! Index.id (Scenario.fcp 1500).2))).
Proof.
  apply (failed_only_when_exceeded _ (Index.audits (Scenario.paint 1000 1500))
           "first-contentful-paint" (Scenario.fcp 1500).2); [done..|].
  apply list_elem_of_here.
Defined.

(** The two filters over the timing audits are complementary: every
    audit of the report is in exactly one of the two lists, and their
    lengths add up to the number of audits.  So the timing count falls
    short of the total exactly when some audit is listed as failed. *)
Theorem every_audit_listed_once (speedResults : object Index.Audit) :
  (∀ key, key ∈ keys speedResults →
     (key ∈ Index.successfulSpeedAudits speedResults
      ↔ key ∉ Index.failedSpeedAudits speedResults))
  ∧ length (Index.successfulSpeedAudits speedResults)
    + length (Index.failedSpeedAudits speedResults)
    = length (keys speedResults)
  ∧ (length (Index.successfulSpeedAudits speedResults)
     = length (keys speedResults)
     ↔ Index.failedSpeedAudits speedResults = []).
Proof.
  assert (length (Index.successfulSpeedAudits speedResults)
          + length (Index.failedSpeedAudits speedResults)
          = length (keys speedResults)) as Hsum.
  { unfold Index.successfulSpeedAudits, Index.failedSpeedAudits.
    rewrite Nat.add_comm. apply List.filter_length. }
  split; [|split; [done|]].
  - intros key Hkey.
    rewrite IndexFacts.elem_of_successfulSpeedAudits,
      IndexFacts.elem_of_failedSpeedAudits.
    destruct (truthy (Index.overBudgetBy_at speedResults key)).
    + split; [by intros [_ ?] | intros Hno; by destruct Hno].
    + split; [by intros _ [_ ?] | done].
  - destruct (Index.failedSpeedAudits speedResults) as [|key rest].
    + cbn in Hsum. split; [done | lia].
    + cbn in Hsum. split; [lia | done].
Qed.

(** The filters over the resource items are not complementary, but no
    failure is silent: in a run that obtains a report, every item that is
    not successful gets the line of its request count or the line of its
    size (both, when both fields are present), and the run rejects with
    "Budgets broken". *)
Theorem every_failing_item_gets_a_line (rt : Runtime) (w : Index.World)
    (url : string) (isCustom : bool) (data : Index.Report) (items : list Item)
    (item : Item) :
  Index.obtains w url isCustom data →
  Index.itemsOf (Index.annotateAll (Index.speedBudgets data) (Index.audits data))
    = Some items →
  item ∈ items →
  item ∉ Index.successfulBundleAudits items →
  (Index.main rt w).2 = Rejected "Budgets broken"
  ∧ (is_Some (countOverBudget item) ∨ is_Some (sizeOverBudget item))
  ∧ (∀ descriptor, countOverBudget item = Some descriptor →
       Log (requestCountText rt item descriptor) ∈ (Index.main rt w).1)
  ∧ (is_Some (sizeOverBudget item) →
       Log (sizeText rt item) ∈ (Index.main rt w).1).
Proof.
  intros Hrun Hitems Hin Hover.
  apply (not_elem_of_filter_bool withinBudget items item Hin) in Hover.
  rewrite (IndexRun.main_invalid rt w url isCustom data items Hrun Hitems)
    by by eapply IndexRun.over_item_invalid.
  cbn [fst snd]. split; [done|]. split; [|split].
  - unfold withinBudget in Hover.
    destruct (countOverBudget item); [left; by eexists|].
    destruct (sizeOverBudget item); [right; by eexists|]. done.
  - intros descriptor Hcount. apply elem_of_app. right.
    by apply IndexRun.count_line_printed.
  - intros [amount Hsize]. apply elem_of_app. right.
    by eapply IndexRun.size_line_printed.
Qed.

Lemma every_failing_item_witness :
  (Index.main monochrome
     (Scenario.run (Scenario.table [Scenario.scripts; Scenario.images]))).2
  = Rejected "Budgets broken"
  ∧ (is_Some (countOverBudget Scenario.images)
     ∨ is_Some (sizeOverBudget Scenario.images))
  ∧ (∀ descriptor, countOverBudget Scenario.images = Some descriptor →
       Log (requestCountText monochrome Scenario.images descriptor)
         ∈ (Index.main monochrome
              (Scenario.run
                 (Scenario.table [Scenario.scripts; Scenario.images]))).1)
  ∧ (is_Some (sizeOverBudget Scenario.images) →
       Log (sizeText monochrome Scenario.images)
         ∈ (Index.main monochrome
              (Scenario.run
                 (Scenario.table [Scenario.scripts; Scenario.images]))).1).
Proof.
  apply (every_failing_item_gets_a_line monochrome _ "https://example.com" true
           (Scenario.table [Scenario.scripts; Scenario.images])
           [Scenario.scripts; Scenario.images]).
  - repeat split; done.
  - done.
  - apply list_elem_of_further, list_elem_of_here.
  - apply (not_elem_of_filter_bool withinBudget); [|done].
    apply list_elem_of_further, list_elem_of_here.
Defined.

(** A row whose size-over-budget amount is present but falsy (0) does not
    break the run; yet in a run that fails for another reason it is listed
    in the block of the size failures, while it counts as successful. *)
Theorem zero_overage_is_listed_when_others_fail (rt : Runtime) (w : Index.World)
    (url : string) (isCustom : bool) (data : Index.Report) (items : list Item)
    (item : Item) (amount : number) :
  Index.obtains w url isCustom data →
  let speedResults :=
    Index.annotateAll (Index.speedBudgets data) (Index.audits data) in
  Index.itemsOf speedResults = Some items →
  item ∈ items →
  sizeOverBudget item = Some amount →
  truthy_number amount = false →
  countOverBudget item = None →
  item ∈ Index.successfulBundleAudits items
  ∧ (Index.isValid speedResults items = false →
     Log (sizeText rt item) ∈ (Index.main rt w).1)
  ∧ (Index.isValid speedResults items = true →
     Index.main rt w
     = (Index.preamble rt url isCustom ++ [Log "All budgets passed. âœ”"],
        Resolved)).
Proof.
  intros Hrun speedResults Hitems Hin Hsize Hzero Hcount.
  split; [|split].
  - apply elem_of_filter_bool. split; [done|]. unfold withinBudget.
    rewrite Hsize, Hcount. cbn. by rewrite Hzero.
  - intros Hinvalid.
    rewrite (IndexRun.main_invalid rt w url isCustom data items Hrun Hitems Hinvalid).
    cbn [fst]. apply elem_of_app. right. by eapply IndexRun.size_line_printed.
  - intros Hvalid.
    rewrite (IndexRun.main_obtains rt w url isCustom data Hrun).
    rewrite (IndexRun.checkBudgets_items rt data items Hitems).
    fold speedResults. by rewrite Hvalid.
Qed.

Lemma zero_overage_witness :
  let data := Scenario.table [Scenario.scripts; Scenario.exact] in
  let speedResults :=
    Index.annotateAll (Index.speedBudgets data) (Index.audits data) in
  Scenario.exact ∈ Index.successfulBundleAudits [Scenario.scripts; Scenario.exact]
  ∧ (Index.isValid speedResults [Scenario.scripts; Scenario.exact] = false →
     Log (sizeText monochrome Scenario.exact)
       ∈ (Index.main monochrome (Scenario.run data)).1)
  ∧ (Index.isValid speedResults [Scenario.scripts; Scenario.exact] = true →
     Index.main monochrome (Scenario.run data)
     = (Index.preamble monochrome "https://example.com" true
        ++ [Log "All budgets passed. âœ”"], Resolved)).
Proof.
  apply (zero_overage_is_listed_when_others_fail monochrome _
           "https://example.com" true
           (Scenario.table [Scenario.scripts; Scenario.exact])
           [Scenario.scripts; Scenario.exact] Scenario.exact (Num 0)).
  - repeat split; done.
  - done.
  - apply list_elem_of_further, list_elem_of_here.
  - done.
  - done.
  - done.
Defined.

(** For the items the audit engine writes, where a present amount is a
    number other than 0 and a present descriptor is not empty, the
    filters agree: an item is left out of the successful ones, in both
    copies, exactly when one of its two over-budget fields is present,
    and exactly then it is listed in a block of the diagnostics. *)
Theorem item_over_iff_field_present (items : list Item) (item : Item) :
  item ∈ items →
  (∀ amount, sizeOverBudget item = Some amount → truthy_number amount = true) →
  (∀ descriptor, countOverBudget item = Some descriptor → descriptor ≠ "") →
  (item ∉ Index.successfulBundleAudits items
   ↔ is_Some (sizeOverBudget item) ∨ is_Some (countOverBudget item))
  ∧ (item ∉ Legacy.successfulBudgets items
     ↔ is_Some (sizeOverBudget item) ∨ is_Some (countOverBudget item))
  ∧ (item ∉ Index.successfulBundleAudits items
     ↔ item ∈ Index.failedBundleAudits items
       ∨ item ∈ Index.failedRequestCountAudits items).
Proof.
  intros Hin Hamount Hdescriptor.
  assert (withinBudget item = false
          ↔ is_Some (sizeOverBudget item) ∨ is_Some (countOverBudget item)) as Hover.
  { unfold withinBudget, truthy, truthy_string.
    destruct (sizeOverBudget item) as [amount|] eqn:Es.
    - rewrite (Hamount amount eq_refl). cbn [negb andb].
      split; [intros _; left; by eexists | done].
    - destruct (countOverBudget item) as [d|] eqn:Ec; cbn [negb andb].
      + destruct (String.eqb_spec d "") as [->|Hd]; [by destruct (Hdescriptor "")|].
        split; [intros _; right; by eexists | done].
      + split; [done|]. by intros [[? [=]]|[? [=]]]. }
  unfold Index.successfulBundleAudits, Legacy.successfulBudgets,
    Index.failedBundleAudits, Index.failedRequestCountAudits.
  rewrite (not_elem_of_filter_bool withinBudget items item Hin), Hover.
  rewrite !elem_of_filter_bool.
  split; [done|]. split; [done|].
  split.
  - intros [[a Ha]|[d Hd]]; [left | right]; (split; [done|]).
    + by rewrite Ha.
    + by rewrite Hd.
  - intros [[_ Hs]|[_ Hc]]; [left | right].
    + by destruct (sizeOverBudget item); [eexists|].
    + by destruct (countOverBudget item); [eexists|].
Qed.

Lemma item_over_witness :
  (Scenario.images ∉ Index.successfulBundleAudits [Scenario.scripts; Scenario.images]
   ↔ is_Some (sizeOverBudget Scenario.images)
     ∨ is_Some (countOverBudget Scenario.images))
  ∧ (Scenario.images ∉ Legacy.successfulBudgets [Scenario.scripts; Scenario.images]
     ↔ is_Some (sizeOverBudget Scenario.images)
       ∨ is_Some (countOverBudget Scenario.images))
  ∧ (Scenario.images ∉ Index.successfulBundleAudits [Scenario.scripts; Scenario.images]
     ↔ Scenario.images ∈ Index.failedBundleAudits [Scenario.scripts; Scenario.images]
       ∨ Scenario.images
         ∈ Index.failedRequestCountAudits [Scenario.scripts; Scenario.images]).
Proof.
  apply (item_over_iff_field_present [Scenario.scripts; Scenario.images]
           Scenario.images).
  - apply list_elem_of_further, list_elem_of_here.
  - intros amount [=].
  - by intros descriptor [= <-].
Defined.

End Reports.

(** ** Descriptors written and read back *)
Module Descriptors.
Import Js Lighthouse JsFacts LighthouseFacts.

Lemma digit_pretty_N_char (d : N) :
  (d < 10)%N → digit (pretty_N_char d) = Some (Z.of_N d).
Proof.
  intros Hd.
  assert (d = 0 ∨ d = 1 ∨ d = 2 ∨ d = 3 ∨ d = 4 ∨ d = 5 ∨ d = 6 ∨ d = 7
          ∨ d = 8 ∨ d = 9)%N as Hcases by lia.
  destruct Hcases as [->|[->|[->|[->|[->|[->|[->|[->|[->| ->]]]]]]]]]; done.
Qed.

(** Reading the digits of [x] in front of [s] continues with the value
    read so far shifted by the digits of [x]. *)
Lemma digits_pretty_N_go (x : N) (s : string) :
  ∃ shift : Z, ∀ acc,
    digits acc (pretty_N_go x s) = digits (acc * shift + Z.of_N x) s.
Proof.
  revert s. induction (N.lt_wf_0 x) as [x _ IH]; intros s.
  destruct (decide (x = 0%N)) as [->|Hpos].
  { exists 1%Z. intros acc. rewrite pretty_N_go_0. f_equal. lia. }
  rewrite pretty_N_go_step by lia.
  destruct (IH (x `div` 10)%N) with (s := String (pretty_N_char (x `mod` 10)) s)
    as [shift Hshift]; [apply N.div_lt; lia|].
  exists (shift * 10)%Z. intros acc. rewrite Hshift. cbn [digits].
  rewrite digit_pretty_N_char by (apply N.mod_lt; lia). f_equal.
  rewrite (N.div_mod x 10) at 3 by lia. lia.
Qed.

Lemma pretty_N_go_nonempty (x : N) (s : string) : s ≠ "" → pretty_N_go x s ≠ "".
Proof.
  revert s. induction (N.lt_wf_0 x) as [x _ IH]; intros s Hs.
  destruct (decide (x = 0%N)) as [->|Hpos]; [done|].
  rewrite pretty_N_go_step by lia. apply IH; [apply N.div_lt; lia | done].
Qed.

(** What [pretty] prints for a natural number is a numeral with that
    value. *)
Lemma digits_pretty (n : N) : pretty n ≠ "" ∧ digits 0 (pretty n) = Some (Z.of_N n).
Proof.
  unfold pretty, pretty_N. case_decide as Hn; [by subst|].
  split.
  - rewrite pretty_N_go_step by lia. by apply pretty_N_go_nonempty.
  - destruct (digits_pretty_N_go n "") as [shift ->]. done.
Qed.

Lemma NumberToString_natural rt (n : N) :
  (Z.of_N n < 2 ^ 53)%Z →
  NumberToString rt (Num (inject_Z (Z.of_N n))) = pretty n.
Proof.
  intros Hbound. rewrite NumberToString_integer by lia. by destruct n.
Qed.

(** A count-over-budget descriptor written as the template literal
    "${n} requests" for a natural number [n] below [2^53] is read back as
    [n]: for a count below [2^53] the line shows the count minus [n]. *)
Theorem count_descriptor_round_trip (rt : Runtime) (item : Item)
    (observed : Z) (n : N) :
  (Z.of_N n < 2 ^ 53)%Z →
  (0 <= observed < 2 ^ 53)%Z →
  requestCount item = Num (inject_Z observed) →
  let descriptor := NumberToString rt (Num (inject_Z (Z.of_N n))) +:+ " requests" in
  StringToNumber rt (split_head " requests" descriptor) = Num (inject_Z (Z.of_N n))
  ∧ requestCountText rt item descriptor
    = green rt (label item) +:+ ": Expected "
      +:+ green rt (pretty (observed - Z.of_N n)%Z)
      +:+ " total number of requests but got "
      +:+ red rt (pretty observed).
Proof.
  intros Hbound Hobserved Hcount descriptor. unfold descriptor.
  rewrite (NumberToString_natural rt n Hbound).
  destruct (digits_pretty n) as [Hne Hdigits].
  assert (StringToNumber rt (split_head " requests" (pretty n +:+ " requests"))
          = Num (inject_Z (Z.of_N n))) as Hread.
  { change (pretty n +:+ " requests") with (pretty n +:+ " requests" +:+ "").
    rewrite (split_head_numeral 0 (pretty n) (Z.of_N n) "" Hdigits).
    by apply StringToNumber_numeral. }
  split; [done|]. unfold requestCountText. rewrite Hread, Hcount, sub_integers.
  by rewrite !NumberToString_integer by lia.
Qed.

Lemma count_descriptor_witness :
  StringToNumber monochrome (split_head " requests" "5 requests") = Num 5
  ∧ requestCountText monochrome Scenario.images "5 requests"
    = "images: Expected 15 total number of requests but got 20".
Proof.
  by apply (count_descriptor_round_trip monochrome Scenario.images 20 5).
Defined.

End Descriptors.

(** ** The two copies side by side *)
Module Copies.
Import Js Lighthouse JsFacts LighthouseFacts.

Lemma legacy_isValid_all (speedAudits : list Legacy.Budget) (items : list Item) :
  Legacy.isValid speedAudits items = true ↔
  (∀ item, item ∈ items → withinBudget item = true)
  ∧ (∀ audit, audit ∈ speedAudits → truthy (Legacy.overBudgetBy audit) = false).
Proof.
  unfold Legacy.isValid, Legacy.successfulBudgets, Legacy.successfulSpeedAudits.
  rewrite andb_true_iff, !Nat.eqb_eq, !filter_length_all.
  by setoid_rewrite negb_true_iff.
Qed.

Lemma gt0_without_threshold (measured : number) : gt0 (sub measured NaN) = false.
Proof. by destruct measured. Qed.

(** Moving the thresholds from [audit.json] into the report did not change
    which runs pass.  Take a report whose audits are keyed by their id and
    carry no [overBudgetBy] of their own, the same measurements for the
    older copy, and entries of [audit.json] that hold the thresholds of
    [speedBudgets], one at least for every threshold: then both copies
    compute the same [isValid]. *)
Theorem copies_agree_on_validity (speedBudgets : gmap string number)
    (audits : object Index.Audit) (auditResults : object Legacy.Audit)
    (speedAudits : list Legacy.Budget) (items : list Item) :
  (∀ key audit, get audits key = Some audit →
     Index.id audit = key
     ∧ (Index.numericValue audit = None → Index.overBudgetBy audit = None)) →
  (∀ key, Legacy.numericValue <$> get auditResults key
          = Index.numericValue <$> get audits key) →
  (∀ entry, entry ∈ speedAudits →
     Legacy.timeBudget entry = speedBudgets !! Legacy.id entry
     ∧ Legacy.overBudgetBy entry = None) →
  (∀ id, is_Some (speedBudgets !! id) →
     ∃ entry, entry ∈ speedAudits ∧ Legacy.id entry = id) →
  Index.isValid (Index.annotateAll speedBudgets audits) items
  = Legacy.isValid (Legacy.annotate auditResults <$> speedAudits) items.
Proof.
  intros Hkeyed Hsame Hentries Hcovered.
  apply eq_true_iff_eq.
  rewrite IndexFacts.isValid_all, legacy_isValid_all.
  apply and_iff_compat_l. split.
  - intros Hindex entry' (entry & -> & Hin)%list_elem_of_fmap.
    destruct (Hentries entry Hin) as [Hbudget Hfresh].
    unfold Legacy.annotate.
    destruct (get auditResults (Legacy.id entry)) as [[[measured|] d]|] eqn:Hget;
      [|by rewrite Hfresh..].
    pose proof (Hsame (Legacy.id entry)) as Hm. rewrite Hget in Hm. cbn in Hm.
    destruct (get audits (Legacy.id entry)) as [audit|] eqn:Hget'; [|done].
    injection Hm as Hm. destruct (Hkeyed _ _ Hget') as [Hid _].
    assert (Legacy.id entry ∈ keys (Index.annotateAll speedBudgets audits)) as Hkey.
    { rewrite IndexFacts.keys_annotateAll. apply get_is_Some. by eexists. }
    specialize (Hindex _ Hkey).
    rewrite (IndexFacts.overBudgetBy_at_annotateAll _ _ _ _ Hget') in Hindex.
    unfold Index.annotate in Hindex. rewrite <- Hm, Hid in Hindex.
    cbn [Legacy.overBudgetBy Index.overBudgetBy] in *. by rewrite Hbudget.
  - intros Hlegacy key Hkey. rewrite IndexFacts.keys_annotateAll in Hkey.
    apply get_is_Some in Hkey as [audit Hget].
    rewrite (IndexFacts.overBudgetBy_at_annotateAll _ _ _ _ Hget).
    destruct (Hkeyed _ _ Hget) as [Hid Hfresh]. unfold Index.annotate.
    destruct (Index.numericValue audit) as [measured|] eqn:Hnum;
      [|by rewrite Hfresh].
    cbn [Index.overBudgetBy]. rewrite truthy_over, Hid.
    destruct (speedBudgets !! key) as [threshold|] eqn:Hsb;
      [|apply gt0_without_threshold].
    destruct (Hcovered key) as (entry & Hin & <-); [by eexists|].
    destruct (Hentries entry Hin) as [Hbudget _].
    assert (Legacy.annotate auditResults entry
              ∈ Legacy.annotate auditResults <$> speedAudits) as Hin'
      by by apply list_elem_of_fmap_2.
    specialize (Hlegacy _ Hin').
    pose proof (Hsame (Legacy.id entry)) as Hm. rewrite Hget in Hm. cbn in Hm.
    destruct (get auditResults (Legacy.id entry)) as [result|] eqn:Hget'; [|done].
    injection Hm as Hm. rewrite Hnum in Hm.
    rewrite (LegacyFacts.annotate_measured _ _ _ _ Hget' Hm) in Hlegacy.
    cbn [Legacy.overBudgetBy] in Hlegacy. rewrite truthy_over in Hlegacy.
    by rewrite Hbudget, Hsb in Hlegacy.
Qed.

Lemma copies_agree_witness :
  Index.isValid
    (Index.annotateAll (Index.speedBudgets (Scenario.paint 1000 1500))
                       (Index.audits (Scenario.paint 1000 1500))) []
  = Legacy.isValid
      (Legacy.annotate [("first-contentful-paint", Scenario.measuredAt 1500);
                        Scenario.legacyTable []]
         <$> [Scenario.budget "first-contentful-paint" 1000]) [].
Proof.
  apply copies_agree_on_validity.
  - intros key audit.
    cbn [get Index.audits Scenario.paint Scenario.fcp Scenario.budgetTable].
    destruct (String.eqb_spec "first-contentful-paint" key) as [<-|_];
      [by intros [= <-]|].
    destruct (String.eqb_spec "performance-budget" key) as [<-|_];
      [by intros [= <-] | done].
  - intros key.
    cbn [get Index.audits Scenario.paint Scenario.fcp Scenario.budgetTable
           Scenario.legacyTable].
    by destruct (String.eqb "first-contentful-paint" key),
         (String.eqb "performance-budget" key).
  - by intros entry ->%list_elem_of_singleton.
  - intros id [t Ht]. cbn [Index.speedBudgets Scenario.paint] in Ht.
    apply lookup_singleton_Some in Ht as [<- _].
    eexists. split; [apply list_elem_of_here | done].
Defined.

End Copies.

(** ** Reports with and without timing budgets *)
Module Settings.
Import Js Lighthouse JsFacts LighthouseFacts.

Lemma put_get_same {V} (o : object V) key (v : V) :
  get o key = Some v → put o key v = o.
Proof.
  induction o as [|[k v0] o IH]; [done|]. cbn [get put].
  destruct (String.eqb k key); [by intros [= ->]|].
  intros Hget. by rewrite IH.
Qed.

(** With a [speedBudgets] object the loop does not throw: it is the loop
    of [Index.annotateAll]. *)
Lemma visitRead_present sb (o : object Index.Audit) key :
  Index.visitRead (Some sb) o key = inr (Index.visit sb o key).
Proof.
  unfold Index.visitRead, Index.visit.
  destruct (get o key) as [audit|] eqn:Hget; [|done].
  destruct (Index.numericValue audit) eqn:Hnum; [done|].
  unfold Index.annotate. rewrite Hnum. by rewrite put_get_same.
Qed.

Lemma forEachKey_present sb ks (o : object Index.Audit) :
  Index.forEachKey (Index.visitRead (Some sb)) o ks
  = inr (foldl (Index.visit sb) o ks).
Proof.
  revert o. induction ks as [|key ks IH]; intros o; [done|].
  cbn [Index.forEachKey foldl]. by rewrite visitRead_present, IH.
Qed.

Lemma annotateRead_present (data : Index.Lhr) sb :
  Index.lhr_speedBudgets data = Some sb →
  Index.annotateRead data = inr (Index.annotateAll sb (Index.lhr_audits data)).
Proof.
  intros Hsb. unfold Index.annotateRead. rewrite Hsb. apply forEachKey_present.
Qed.

(** For a report with a [speedBudgets] object, [Index.evaluate] is
    [Index.checkBudgets] under the [catch]; a run that obtains the report
    does what [Index.evaluate] does, after the preamble. *)
Lemma evaluate_asRead rt (data : Index.Report) :
  Index.evaluate rt (Index.asRead data)
  = match Index.checkBudgets rt data with
    | (out, inr outcome) => (out, outcome)
    | (out, inl e) => (out ++ [LogError e], Rejected "Failed to get lighthouse data")
    end.
Proof.
  unfold Index.evaluate.
  rewrite (annotateRead_present (Index.asRead data) (Index.speedBudgets data) eq_refl).
  unfold Index.checkBudgets, Index.conclude. cbn [lift bind Index.asRead Index.lhr_audits].
  by destruct (let* items := _ in _) as [out [e|outcome]].
Qed.

Lemma main_evaluate rt (w : Index.World) url isCustom (data : Index.Report) :
  Index.obtains w url isCustom data →
  Index.main rt w
  = (Index.preamble rt url isCustom ++ (Index.evaluate rt (Index.asRead data)).1,
     (Index.evaluate rt (Index.asRead data)).2).
Proof.
  intros Hrun. rewrite (IndexRun.main_obtains rt w url isCustom data Hrun).
  rewrite evaluate_asRead.
  by destruct (Index.checkBudgets rt data) as [out [e|outcome]].
Qed.

(** Without a [speedBudgets] object the loop throws at the first audit
    that has a measurement, and passes the others by. *)
Lemma forEachKey_absent ks (o : object Index.Audit) key audit measured :
  key ∈ ks → get o key = Some audit → Index.numericValue audit = Some measured →
  ∃ message, Index.forEachKey (Index.visitRead None) o ks = inl (TypeError message).
Proof.
  intros Hin Hget Hnum. induction ks as [|k ks IH]; [by apply elem_of_nil in Hin|].
  cbn [Index.forEachKey]. unfold Index.visitRead at 1.
  destruct (get o k) as [a|] eqn:Hk.
  - destruct (Index.numericValue a) eqn:Ha; [by eexists|].
    apply IH. apply elem_of_cons in Hin as [->|Hin]; [congruence | done].
  - apply IH. apply elem_of_cons in Hin as [->|Hin]; [congruence | done].
Qed.

Lemma forEachKey_unmeasured ks (o : object Index.Audit) :
  (∀ key audit, get o key = Some audit → Index.numericValue audit = None) →
  Index.forEachKey (Index.visitRead None) o ks = inr o.
Proof.
  intros Hnone. induction ks as [|k ks IH]; [done|].
  cbn [Index.forEachKey]. unfold Index.visitRead at 1.
  destruct (get o k) as [a|] eqn:Hk; [|done].
  by rewrite (Hnone k a Hk).
Qed.

(** An audit that has a measurement and no threshold in the
    [speedBudgets] object of the report is evaluated without an
    exception: its overage is NaN, which is not greater than 0, so
    [overBudgetBy] is left undefined, the audit is listed as successful
    and not as failed, and whether the run is valid depends on the
    resource items and on the other audits only. *)
Theorem unbudgeted_audit_is_within (data : Index.Lhr)
    (speedBudgets : gmap string number) (key : string) (audit : Index.Audit)
    (measured : number) :
  Index.lhr_speedBudgets data = Some speedBudgets →
  get (Index.lhr_audits data) key = Some audit →
  Index.numericValue audit = Some measured →
  speedBudgets !! Index.id audit = None →
  ∃ speedResults,
    Index.annotateRead data = inr speedResults
    ∧ sub measured (ToNumber (speedBudgets !! Index.id audit)) = NaN
    ∧ get speedResults key
      = Some {| Index.id := Index.id audit;
                Index.numericValue := Some measured;
                Index.details := Index.details audit;
                Index.timeBudget := None;
                Index.overBudgetBy := None |}
    ∧ key ∈ Index.successfulSpeedAudits speedResults
    ∧ (key ∉ Index.failedSpeedAudits speedResults)
    ∧ ∀ items : list Item,
        Index.isValid speedResults items = true ↔
        (∀ item, item ∈ items → withinBudget item = true)
        ∧ (∀ other, other ∈ keys speedResults → other ≠ key →
                    other ∈ Index.successfulSpeedAudits speedResults).
Proof.
  intros Hpresent Hget Hnum Hsb.
  exists (Index.annotateAll speedBudgets (Index.lhr_audits data)).
  split; [by apply annotateRead_present|].
  set (speedResults := Index.annotateAll speedBudgets (Index.lhr_audits data)).
  assert (sub measured (ToNumber (speedBudgets !! Index.id audit)) = NaN) as Hnan.
  { rewrite Hsb. by destruct measured. }
  assert (get speedResults key
          = Some {| Index.id := Index.id audit;
                    Index.numericValue := Some measured;
                    Index.details := Index.details audit;
                    Index.timeBudget := None;
                    Index.overBudgetBy := None |}) as Hget'.
  { unfold speedResults. rewrite IndexFacts.get_annotateAll, Hget.
    cbn [fmap option_fmap option_map]. unfold Index.annotate.
    by rewrite Hnum, Hnan, Hsb. }
  assert (key ∈ keys speedResults) as Hkey by (apply get_is_Some; by eexists).
  assert (truthy (Index.overBudgetBy_at speedResults key) = false) as Hwithin.
  { unfold Index.overBudgetBy_at. by rewrite Hget'. }
  split; [done|]. split; [done|].
  rewrite IndexFacts.elem_of_successfulSpeedAudits,
    IndexFacts.elem_of_failedSpeedAudits.
  split; [done|]. split; [rewrite Hwithin; by intros [_ ?]|].
  intros items. rewrite IndexFacts.isValid_all.
  setoid_rewrite IndexFacts.elem_of_successfulSpeedAudits.
  split; intros [Hitems Hkeys]; (split; [done|]).
  - intros other Hother _. split; [done | by apply Hkeys].
  - intros other Hother. destruct (decide (other = key)) as [->|Hne]; [done|].
    by apply Hkeys.
Qed.

Lemma unbudgeted_witness :
  ∃ speedResults,
    Index.annotateRead (Index.asRead Scenario.unbudgeted) = inr speedResults
    ∧ "speed-index" ∈ Index.successfulSpeedAudits speedResults
    ∧ ("speed-index" ∉ Index.failedSpeedAudits speedResults).
Proof.
  destruct (unbudgeted_audit_is_within (Index.asRead Scenario.unbudgeted)
              ∅ "speed-index"
              (Scenario.reported "speed-index" (Some (Num 4321)) None)
              (Num 4321) eq_refl eq_refl eq_refl eq_refl)
    as (speedResults & Hloop & _ & _ & Hlisted & Hnot & _).
  by exists speedResults.
Defined.

(** A report whose settings hold no [speedBudgets] cannot be evaluated
    once an audit has a measurement: the loop throws at it, nothing is
    printed but the exception, and the run ends as any failure to get the
    data would.  When no audit has a measurement the loop changes
    nothing. *)
Theorem absent_speedBudgets_rejects (rt : Runtime) (data : Index.Lhr) :
  Index.lhr_speedBudgets data = None →
  (∀ key audit measured,
     get (Index.lhr_audits data) key = Some audit →
     Index.numericValue audit = Some measured →
     ∃ message,
       Index.evaluate rt data
       = ([LogError (TypeError message)], Rejected "Failed to get lighthouse data"))
  ∧ ((∀ key audit, get (Index.lhr_audits data) key = Some audit →
                   Index.numericValue audit = None) →
     Index.annotateRead data = inr (Index.lhr_audits data)).
Proof.
  intros Habsent. split.
  - intros key audit measured Hget Hnum.
    assert (key ∈ keys (Index.lhr_audits data)) as Hkey
      by (apply get_is_Some; by eexists).
    destruct (forEachKey_absent _ _ key audit measured Hkey Hget Hnum)
      as [message Hthrow].
    exists message. unfold Index.evaluate, Index.annotateRead.
    by rewrite Habsent, Hthrow.
  - intros Hnone. unfold Index.annotateRead. rewrite Habsent.
    by apply forEachKey_unmeasured.
Qed.

Lemma absent_speedBudgets_witness :
  ∃ message,
    Index.evaluate monochrome Scenario.unconfigured
    = ([LogError (TypeError message)], Rejected "Failed to get lighthouse data").
Proof.
  apply (proj1 (absent_speedBudgets_rejects monochrome Scenario.unconfigured eq_refl)
           "speed-index" (Scenario.reported "speed-index" (Some (Num 4321)) None)
           (Num 4321)); reflexivity.
Defined.

End Settings.
